(** * NIST output validator: a shallow embedding of [output_validator.py]

    The development follows the Python module top to bottom: Python strings
    and the operations the validator uses on them, the fragment of the [re]
    module its patterns live in, the [NISTOutputValidator] object with its
    three finding buckets, the six rule checks, the report and [main].

    Characters are Rocq [ascii] values read as code points below 256; a
    Python [str] is a list of them, and the report texts the properties
    range over are the texts of such characters. The three marks that open
    the messages lie outside that range and stand in the message literals
    as their UTF-8 bytes.

    The file has three parts: the embedding of the module, the vocabulary
    the properties are stated in, and the properties with their proofs. *)

From Stdlib Require Import Ascii String List Bool Arith Lia.
Import ListNotations.

Set Implicit Arguments.

(** ** Python strings *)

Definition pystr := list ascii.

(** A string literal of the source. *)
Definition py (s : string) : pystr := list_ascii_of_string s.

Fixpoint pystr_eqb (a b : pystr) : bool :=
  match a, b with
  | [], [] => true
  | x :: a', y :: b' => Ascii.eqb x y && pystr_eqb a' b'
  | _, _ => false
  end.

(** [prefix.startswith]-style test used by the substring search. *)
Fixpoint starts_with (p s : pystr) : bool :=
  match p, s with
  | [], _ => true
  | a :: p', b :: s' => Ascii.eqb a b && starts_with p' s'
  | _ :: _, [] => false
  end.

(** [needle in hay] on strings: is [needle] a substring of [hay]. *)
Fixpoint contains (needle hay : pystr) : bool :=
  starts_with needle hay ||
  match hay with
  | [] => false
  | _ :: hay' => contains needle hay'
  end.

(** [x in l] on a list of strings. *)
Definition str_in (x : pystr) (l : list pystr) : bool := existsb (pystr_eqb x) l.

(** [s.split(sep)] for a one-character separator. *)
Fixpoint split (sep : ascii) (s : pystr) : list pystr :=
  match s with
  | [] => [[]]
  | c :: s' =>
      if Ascii.eqb c sep then [] :: split sep s'
      else match split sep s' with
           | w :: ws => (c :: w) :: ws
           | [] => [[c]]
           end
  end.

(** [s.replace(old, new)] for one-character [old] and [new]. *)
Definition replace (old new : ascii) (s : pystr) : pystr :=
  map (fun c => if Ascii.eqb c old then new else c) s.

(** [sep.join(l)]. *)
Fixpoint join (sep : pystr) (l : list pystr) : pystr :=
  match l with
  | [] => []
  | [x] => x
  | x :: l' => x ++ sep ++ join sep l'
  end.

(** [s[start:stop]] for non-negative indices. *)
Definition slice (s : pystr) (start stop : nat) : pystr :=
  firstn (stop - start) (skipn start s).

(** [str(n)] for a natural number, as the f-strings print [len(...)]. *)
Definition digit_char (d : nat) : ascii := ascii_of_nat (48 + d).

Fixpoint str_of_nat_aux (fuel n : nat) (acc : pystr) : pystr :=
  match fuel with
  | 0 => acc
  | S fuel' =>
      let acc' := digit_char (n mod 10) :: acc in
      if n / 10 =? 0 then acc' else str_of_nat_aux fuel' (n / 10) acc'
  end.

Definition str_of_nat (n : nat) : pystr := str_of_nat_aux (S n) n [].

(** ** Character classes of [re] on code points below 256 *)

Definition newline : ascii := ascii_of_nat 10.

(** [\d]: the decimal digits. *)
Definition is_digit (c : ascii) : bool :=
  let n := nat_of_ascii c in (48 <=? n) && (n <=? 57).

(** [\s]: the whitespace of [str] patterns. *)
Definition is_space (c : ascii) : bool :=
  let n := nat_of_ascii c in
  ((9 <=? n) && (n <=? 13)) || ((28 <=? n) && (n <=? 32)) ||
  (n =? 133) || (n =? 160).

(** Lower-casing as [re.IGNORECASE] applies it to a character. *)
Definition lower (c : ascii) : ascii :=
  let n := nat_of_ascii c in
  if ((65 <=? n) && (n <=? 90)) ||
     ((192 <=? n) && (n <=? 222) && negb (n =? 215))
  then ascii_of_nat (n + 32) else c.

(** ** The fragment of [re] the validator's patterns use

    A pattern is a sequence of one-character items, each with a quantifier;
    every pattern of the module has this shape. *)

Inductive atom : Type :=
| ALit (c : ascii)      (* an ordinary or escaped character *)
| AAny                  (* [.] : any character but a newline *)
| ADigit                (* [\d] *)
| ASpace.               (* [\s] *)

Inductive cset : Type :=
| COne (a : atom)
| CNeg (l : list atom). (* [[^...]] *)

Inductive quant : Type :=
| QOne
| QStar                 (* greedy [*] *)
| QPlus                 (* greedy [+] *)
| QRep (n : nat).       (* [{n}] *)

Definition regex := list (cset * quant).

Definition atom_match (ignorecase : bool) (a : atom) (c : ascii) : bool :=
  match a with
  | ALit p => if ignorecase then Ascii.eqb (lower c) (lower p) else Ascii.eqb c p
  | AAny => negb (Ascii.eqb c newline)
  | ADigit => is_digit c
  | ASpace => is_space c
  end.

Definition cset_match (ignorecase : bool) (cs : cset) (c : ascii) : bool :=
  match cs with
  | COne a => atom_match ignorecase a c
  | CNeg l => negb (existsb (fun a => atom_match ignorecase a c) l)
  end.

(** *** Compiling a pattern string *)

Inductive pstate : Type :=
| PTop                              (* no item pending *)
| PEsc                              (* after a backslash *)
| PAtom (c : cset)                  (* an item that may still take a quantifier *)
| PBrace (c : cset) (n : option nat)(* inside [{digits] *)
| PDone                             (* a quantified item was just emitted *)
| PClassOpen                        (* after [[] *)
| PClass (l : list atom)            (* inside [[^...] *)
| PClassEsc (l : list atom).        (* after a backslash inside a class *)

Definition is_alnum (c : ascii) : bool :=
  let n := nat_of_ascii c in
  is_digit c || ((65 <=? n) && (n <=? 90)) || ((97 <=? n) && (n <=? 122)).

(** The atom an escape [\c] stands for, when the fragment has it. *)
Definition escape_atom (c : ascii) : option atom :=
  if Ascii.eqb c "d" then Some ADigit
  else if Ascii.eqb c "s" then Some ASpace
  else if is_alnum c then None
  else Some (ALit c).

Definition is_special (c : ascii) : bool :=
  existsb (Ascii.eqb c) (py "^$*+?{}[]\|()").

Definition flush (st : pstate) (acc : regex) : option regex :=
  match st with
  | PTop | PDone => Some acc
  | PAtom c => Some ((c, QOne) :: acc)
  | _ => None
  end.

(** [acc] holds the items read so far, last first.  [None] means the pattern
    leaves the fragment (or is not a pattern at all). *)
Fixpoint re_parse (s : pystr) (st : pstate) (acc : regex) : option regex :=
  match s with
  | [] => option_map (@rev _) (flush st acc)
  | c :: s' =>
      match st with
      | PEsc =>
          match escape_atom c with
          | Some a => re_parse s' (PAtom (COne a)) acc
          | None => None
          end
      | PBrace cs n =>
          if is_digit c then
            let d := nat_of_ascii c - 48 in
            re_parse s' (PBrace cs (Some (match n with Some m => 10 * m + d | None => d end))) acc
          else if Ascii.eqb c "}" then
            match n with
            | Some m => re_parse s' PDone ((cs, QRep m) :: acc)
            | None => None
            end
          else None
      | PClassOpen =>
          if Ascii.eqb c "^" then re_parse s' (PClass []) acc else None
      | PClass l =>
          if Ascii.eqb c "]" then
            match l with
            | [] => None
            | _ => re_parse s' (PAtom (CNeg (rev l))) acc
            end
          else if Ascii.eqb c "\" then re_parse s' (PClassEsc l) acc
          else if Ascii.eqb c "-" || Ascii.eqb c "[" || Ascii.eqb c "^" then None
          else re_parse s' (PClass (ALit c :: l)) acc
      | PClassEsc l =>
          match escape_atom c with
          | Some a => re_parse s' (PClass (a :: l)) acc
          | None => None
          end
      | PAtom cs =>
          if Ascii.eqb c "*" then re_parse s' PDone ((cs, QStar) :: acc)
          else if Ascii.eqb c "+" then re_parse s' PDone ((cs, QPlus) :: acc)
          else if Ascii.eqb c "{" then re_parse s' (PBrace cs None) acc
          else if Ascii.eqb c "\" then re_parse s' PEsc ((cs, QOne) :: acc)
          else if Ascii.eqb c "[" then re_parse s' PClassOpen ((cs, QOne) :: acc)
          else if Ascii.eqb c "." then re_parse s' (PAtom (COne AAny)) ((cs, QOne) :: acc)
          else if is_special c then None
          else re_parse s' (PAtom (COne (ALit c))) ((cs, QOne) :: acc)
      | PTop | PDone =>
          if Ascii.eqb c "\" then re_parse s' PEsc acc
          else if Ascii.eqb c "[" then re_parse s' PClassOpen acc
          else if Ascii.eqb c "." then re_parse s' (PAtom (COne AAny)) acc
          else if is_special c then None
          else re_parse s' (PAtom (COne (ALit c))) acc
      end
  end.

Definition re_compile (pattern : pystr) : option regex := re_parse pattern PTop [].

(** *** Backtracking matcher *)

(** Greedy repetition: take one more character first, fall back to the rest
    of the pattern [k] when that fails.  The result is the length matched. *)
Fixpoint re_star (f : ascii -> bool) (k : pystr -> option nat) (s : pystr) : option nat :=
  match s with
  | c :: s' =>
      if f c then
        match re_star f k s' with
        | Some n => Some (S n)
        | None => k s
        end
      else k s
  | [] => k s
  end.

Fixpoint re_rep (f : ascii -> bool) (n : nat) (k : pystr -> option nat) (s : pystr) : option nat :=
  match n with
  | 0 => k s
  | S n' =>
      match s with
      | c :: s' => if f c then option_map S (re_rep f n' k s') else None
      | [] => None
      end
  end.

Fixpoint re_match_here (ignorecase : bool) (r : regex) : pystr -> option nat :=
  match r with
  | [] => fun _ => Some 0
  | (cs, q) :: r' =>
      let f := cset_match ignorecase cs in
      let k := re_match_here ignorecase r' in
      match q with
      | QOne => re_rep f 1 k
      | QStar => re_star f k
      | QPlus => re_rep f 1 (re_star f k)
      | QRep n => re_rep f n k
      end
  end.

(** [re.match]: a match at the start of [s], given by its length. *)
Definition re_match (ignorecase : bool) (r : regex) (s : pystr) : option nat :=
  re_match_here ignorecase r s.

(** [re.search]: the leftmost match, as [(m.start(), m.end())]. *)
Fixpoint re_search_from (ignorecase : bool) (r : regex) (s : pystr) (pos : nat)
  : option (nat * nat) :=
  match re_match_here ignorecase r s with
  | Some n => Some (pos, pos + n)
  | None =>
      match s with
      | [] => None
      | _ :: s' => re_search_from ignorecase r s' (S pos)
      end
  end.

Definition re_search (ignorecase : bool) (r : regex) (s : pystr) : option (nat * nat) :=
  re_search_from ignorecase r s 0.

(** [re.findall] for a pattern without groups: the matched substrings, left
    to right, not overlapping.  [skip] counts the characters of the last
    match still to step over. *)
Fixpoint re_findall_aux (ignorecase : bool) (r : regex) (s : pystr) (skip : nat)
  : list pystr :=
  match skip with
  | S k =>
      match s with
      | [] => []
      | _ :: s' => re_findall_aux ignorecase r s' k
      end
  | 0 =>
      match re_match_here ignorecase r s with
      | Some n =>
          firstn n s ::
          match s with
          | [] => []
          | _ :: s' => re_findall_aux ignorecase r s' (pred n)
          end
      | None =>
          match s with
          | [] => []
          | _ :: s' => re_findall_aux ignorecase r s' 0
          end
      end
  end.

Definition re_findall (ignorecase : bool) (r : regex) (s : pystr) : list pystr :=
  re_findall_aux ignorecase r s 0.

(** ** Exceptions and the validator's monad *)

Inductive exn : Type :=
| IndexError
| KeyError
| ReError                (* [re.error]: the pattern does not compile *)
| FileNotFoundError
| OtherException.        (* any other subclass of [Exception] *)

Inductive result (A : Type) : Type :=
| Ok (a : A)
| Raise (e : exn).

Arguments Ok {A} a.
Arguments Raise {A} e.

Definition rbind {A B : Type} (x : result A) (f : A -> result B) : result B :=
  match x with
  | Ok a => f a
  | Raise e => Raise e
  end.

(** [l[i]] *)
Definition index {A : Type} (l : list A) (i : nat) : result A :=
  match nth_error l i with
  | Some a => Ok a
  | None => Raise IndexError
  end.

(** The module-level functions of [re] take the pattern as a string and
    compile it on each call. A pattern outside the fragment shows here as
    [ReError], also where [re] itself would accept it: every pattern of the
    module is inside the fragment, and a property about another pattern
    assumes that it compiles. *)
Definition py_re_search (pattern content : pystr) (ignorecase : bool)
  : result (option (nat * nat)) :=
  match re_compile pattern with
  | Some r => Ok (re_search ignorecase r content)
  | None => Raise ReError
  end.

Definition py_re_match (pattern s : pystr) : result (option nat) :=
  match re_compile pattern with
  | Some r => Ok (re_match false r s)
  | None => Raise ReError
  end.

Definition py_re_findall (pattern s : pystr) : result (list pystr) :=
  match re_compile pattern with
  | Some r => Ok (re_findall false r s)
  | None => Raise ReError
  end.

(** ** The validator object *)

Record pub_info : Type := { date : pystr; title : pystr }.

Record NISTOutputValidator : Type := {
  verified_pubs : list (pystr * pub_info);   (* a dict, in insertion order *)
  invalid_pubs : list pystr;
  errors : list pystr;
  warnings : list pystr;
  passed_checks : list pystr
}.

Definition pub (d t : string) : pub_info := {| date := py d; title := py t |}.

Definition __init__ : NISTOutputValidator := {|
  verified_pubs := [
    (py "800-218A", pub "2024-07-26" "SSDF Community Profile for Generative AI");
    (py "800-171r3", pub "2024-05-15" "Protecting Controlled Unclassified Information");
    (py "csf-2.0", pub "2024-02-26" "Cybersecurity Framework 2.0");
    (py "800-204D", pub "2024-02-01" "Software Supply Chain Security in DevSecOps");
    (py "800-218", pub "2022-02-04" "Secure Software Development Framework");
    (py "800-161r1", pub "2022-05-13" "Cybersecurity Supply Chain Risk Management");
    (py "800-215", pub "2022-11-17" "Guide to a Secure Enterprise Network Landscape");
    (py "800-53r5", pub "2020-09-23" "Security and Privacy Controls");
    (py "800-190", pub "2017-09-01" "Application Container Security Guide")
  ];
  invalid_pubs := [py "800-204C"; py "800-210"];
  errors := [];
  warnings := [];
  passed_checks := []
|}.

(** A method body: it reads and updates [self] and may raise. *)
Definition M (A : Type) : Type := NISTOutputValidator -> result (A * NISTOutputValidator).

Definition ret {A : Type} (a : A) : M A := fun self => Ok (a, self).

Definition bind {A B : Type} (m : M A) (f : A -> M B) : M B :=
  fun self =>
    match m self with
    | Ok (a, self') => f a self'
    | Raise e => Raise e
    end.

Definition lift {A : Type} (x : result A) : M A :=
  fun self =>
    match x with
    | Ok a => Ok (a, self)
    | Raise e => Raise e
    end.

Declare Scope validator_scope.
Delimit Scope validator_scope with validator.
Notation "x <- m ;; k" := (bind m (fun x => k))
  (at level 61, m at next level, right associativity) : validator_scope.
Notation "m ;; k" := (bind m (fun _ => k))
  (at level 61, right associativity) : validator_scope.
Open Scope validator_scope.

Definition get_self : M NISTOutputValidator := fun self => Ok (self, self).

(** [self.errors.append(msg)] and its two siblings. *)
Definition errors_append (msg : pystr) : M unit :=
  fun self =>
    Ok (tt, {| verified_pubs := verified_pubs self;
               invalid_pubs := invalid_pubs self;
               errors := errors self ++ [msg];
               warnings := warnings self;
               passed_checks := passed_checks self |}).

Definition warnings_append (msg : pystr) : M unit :=
  fun self =>
    Ok (tt, {| verified_pubs := verified_pubs self;
               invalid_pubs := invalid_pubs self;
               errors := errors self;
               warnings := warnings self ++ [msg];
               passed_checks := passed_checks self |}).

Definition passed_checks_append (msg : pystr) : M unit :=
  fun self =>
    Ok (tt, {| verified_pubs := verified_pubs self;
               invalid_pubs := invalid_pubs self;
               errors := errors self;
               warnings := warnings self;
               passed_checks := passed_checks self ++ [msg] |}).

(** [for x in l: body(x)] *)
Fixpoint for_each {A : Type} (l : list A) (body : A -> M unit) : M unit :=
  match l with
  | [] => ret tt
  | x :: l' => body x ;; for_each l' body
  end.

(** ** The rule checks *)

Definition required_sections : list pystr := [
  py "Executive Summary";
  py "Latest Updates Discovered";
  py "Impact on Software Development Organizations";
  py "Key Actions and Checklist";
  py "References and Citations";
  py "Quick Reference Table"
].

Definition section_found_msg (section : pystr) : pystr :=
  py "✓ Section found: " ++ section.

Definition section_missing_msg (section : pystr) : pystr :=
  py "✗ Missing required section: " ++ section.

Definition _check_required_sections (content : pystr) : M unit :=
  for_each required_sections (fun section =>
    if contains section content
    then passed_checks_append (section_found_msg section)
    else errors_append (section_missing_msg section)).

(** [_get_context]: the text from [chars] characters before the first match
    of [pattern] to [chars] characters after it. [chars] is a natural
    number here; the module calls it with 200. *)
Definition _get_context (content pattern : pystr) (chars : nat) : result pystr :=
  rbind (py_re_search pattern content true) (fun m =>
    match m with
    | Some (m_start, m_end) =>
        let start := Nat.max 0 (m_start - chars) in
        let stop := Nat.min (length content) (m_end + chars) in
        Ok (slice content start stop)
    | None => Ok []
    end).

(** The two patterns a publication is looked up by. *)
Definition pub_patterns (pub_id : pystr) : result (list pystr) :=
  rbind (index (split "-" pub_id) 1) (fun tail =>
    Ok [py "800-" ++ tail; py "SP " ++ replace "-" " " pub_id]).

Definition date_pattern : pystr := py "\d{4}-\d{2}-\d{2}".

Definition correct_date_msg (pub_id correct_date : pystr) : pystr :=
  py "✓ Correct date for " ++ pub_id ++ py ": " ++ correct_date.

Definition incorrect_date_msg (pub_id correct_date found : pystr) : pystr :=
  py "⚠ Possible incorrect date for " ++ pub_id ++ py ". " ++
  py "Expected: " ++ correct_date ++ py ", Found: " ++ found.

(** The body of the inner loop of [_check_publication_dates]. *)
Definition check_pub_pattern (content pub_id : pystr) (info : pub_info)
  (pattern : pystr) : M unit :=
  m <- lift (py_re_search pattern content true) ;;
  match m with
  | Some _ =>
      let correct_date := date info in
      pub_context <- lift (_get_context content pattern 200) ;;
      dates_found <- lift (py_re_findall date_pattern pub_context) ;;
      if str_in correct_date dates_found then
        passed_checks_append (correct_date_msg pub_id correct_date)
      else
        match dates_found with
        | _ :: _ =>
            found <- lift (index dates_found 0) ;;
            warnings_append (incorrect_date_msg pub_id correct_date found)
        | [] => ret tt
        end
  | None => ret tt
  end.

(** The body of its outer loop. *)
Definition check_pub_dates (content : pystr) (item : pystr * pub_info) : M unit :=
  let (pub_id, info) := item in
  patterns <- lift (pub_patterns pub_id) ;;
  for_each patterns (check_pub_pattern content pub_id info).

Definition _check_publication_dates (content : pystr) : M unit :=
  self <- get_self ;;
  for_each (verified_pubs self) (check_pub_dates content).

Definition invalid_pub_msg (invalid_pub : pystr) : pystr :=
  py "✗ Invalid publication referenced: " ++ invalid_pub.

Definition no_invalid_pub_msg (invalid_pub : pystr) : pystr :=
  py "✓ No reference to invalid publication: " ++ invalid_pub.

Definition _check_invalid_publications (content : pystr) : M unit :=
  self <- get_self ;;
  for_each (invalid_pubs self) (fun invalid_pub =>
    if contains invalid_pub content
    then errors_append (invalid_pub_msg invalid_pub)
    else passed_checks_append (no_invalid_pub_msg invalid_pub)).

Definition url_pattern : pystr := py "https://csrc\.nist\.gov[^\s\)]+".

Definition correct_pattern : pystr :=
  py "https://csrc\.nist\.gov/pubs/sp/\d+/[^/\s]+/final".

Definition correct_url_msg (url : pystr) : pystr := py "✓ Correct URL format: " ++ url.

Definition check_url_msg (url : pystr) : pystr := py "⚠ Check URL format: " ++ url.

Definition _check_urls (content : pystr) : M unit :=
  urls <- lift (py_re_findall url_pattern content) ;;
  for_each urls (fun url =>
    m <- lift (py_re_match correct_pattern url) ;;
    match m with
    | Some _ => passed_checks_append (correct_url_msg url)
    | None => warnings_append (check_url_msg url)
    end).

Definition table_pattern : pystr := py "\|.*\|.*\|".

Definition multiple_tables_msg (rows : nat) : pystr :=
  py "⚠ Multiple tables detected (" ++ str_of_nat rows ++ py " rows). " ++
  py "Verify no duplicates.".

Definition single_table_msg : pystr := py "✓ Single reference table (no duplicates)".

Definition _check_duplicate_tables (content : pystr) : M unit :=
  table_headers <- lift (py_re_findall table_pattern content) ;;
  if 5 <? length table_headers
  then warnings_append (multiple_tables_msg (length table_headers))
  else passed_checks_append single_table_msg.

Definition key_pubs : list pystr :=
  [py "800-218A"; py "800-218"; py "800-171"; py "800-204D"].

Definition missing_pubs_msg (missing : list pystr) : pystr :=
  py "⚠ Key publications not mentioned: " ++ join (py ", ") missing.

Definition all_key_pubs_msg : pystr := py "✓ All key publications referenced".

Definition _check_publication_coverage (content : pystr) : M unit :=
  let missing := filter (fun p => negb (contains p content)) key_pubs in
  match missing with
  | _ :: _ => warnings_append (missing_pubs_msg missing)
  | [] => passed_checks_append all_key_pubs_msg
  end.

(** ** The report, [validate_file] and [main] *)

Inductive value : Type :=
| VStr (s : pystr)
| VInt (n : nat).

(** A [dict] with string keys, in insertion order. *)
Definition dict := list (pystr * value).

Fixpoint getitem (d : dict) (key : pystr) : result value :=
  match d with
  | [] => Raise KeyError
  | (k, v) :: d' => if pystr_eqb k key then Ok v else getitem d' key
  end.

(** [_generate_report]: what it prints is left out, what it returns is kept. *)
Definition _generate_report : M dict :=
  self <- get_self ;;
  match errors self with
  | _ :: _ =>
      ret [(py "status", VStr (py "failed")); (py "errors", VInt (length (errors self)))]
  | [] =>
      match warnings self with
      | _ :: _ =>
          ret [(py "status", VStr (py "passed_with_warnings"));
               (py "warnings", VInt (length (warnings self)))]
      | [] => ret [(py "status", VStr (py "passed"))]
      end
  end.

(** The statements of [validate_file] inside its [try], after the read. *)
Definition run_checks (content : pystr) : M dict :=
  _check_required_sections content ;;
  _check_publication_dates content ;;
  _check_invalid_publications content ;;
  _check_urls content ;;
  _check_duplicate_tables content ;;
  _check_publication_coverage content ;;
  _generate_report.

(** What opening and reading a path gives: the text, or the exception. *)
Definition filesystem := pystr -> result pystr.

(** A call either returns, leaving [self] updated, or ends the process
    through [sys.exit]. *)
Inductive outcome (A : Type) : Type :=
| Returned (a : A) (self : NISTOutputValidator)
| SysExit (code : nat).

Arguments Returned {A} a self.
Arguments SysExit {A} code.

Definition validate_file (fs : filesystem) (filepath : pystr)
  (self : NISTOutputValidator) : outcome dict :=
  match (content <- lift (fs filepath) ;; run_checks content) self with
  | Ok (report, self') => Returned report self'
  | Raise FileNotFoundError => SysExit 1
  | Raise _ => SysExit 1
  end.

(** [main], as the exit code of the process. An exception that reaches the
    top level ends the process with code 1. *)
Definition main (fs : filesystem) (argv : list pystr) : nat :=
  if length argv <? 2 then 1
  else
    match index argv 1 with
    | Raise _ => 1
    | Ok path =>
        match validate_file fs path __init__ with
        | SysExit code => code
        | Returned result _ =>
            match getitem result (py "status") with
            | Raise _ => 1
            | Ok status =>
                match status with
                | VStr s => if pystr_eqb s (py "failed") then 1 else 0
                | VInt _ => 0
                end
            end
        end
    end.

(** * Vocabulary of the properties *)

(** ** Findings emitted by a piece of code

    What a check does to [self] is to append to the three buckets; the
    lists it appends are its findings. *)

Record findings : Type := {
  f_errors : list pystr;
  f_warnings : list pystr;
  f_passed : list pystr
}.

Definition no_findings : findings :=
  {| f_errors := []; f_warnings := []; f_passed := [] |}.

Definition one_error (msg : pystr) : findings :=
  {| f_errors := [msg]; f_warnings := []; f_passed := [] |}.

Definition one_warning (msg : pystr) : findings :=
  {| f_errors := []; f_warnings := [msg]; f_passed := [] |}.

Definition one_pass (msg : pystr) : findings :=
  {| f_errors := []; f_warnings := []; f_passed := [msg] |}.

Definition fapp (f g : findings) : findings :=
  {| f_errors := f_errors f ++ f_errors g;
     f_warnings := f_warnings f ++ f_warnings g;
     f_passed := f_passed f ++ f_passed g |}.

Definition fconcat (l : list findings) : findings := fold_right fapp no_findings l.

Definition fcount (f : findings) : nat :=
  length (f_errors f) + length (f_warnings f) + length (f_passed f).

(** [self] after [f] has been appended to its buckets. *)
Definition emit (self : NISTOutputValidator) (f : findings) : NISTOutputValidator :=
  {| verified_pubs := verified_pubs self;
     invalid_pubs := invalid_pubs self;
     errors := errors self ++ f_errors f;
     warnings := warnings self ++ f_warnings f;
     passed_checks := passed_checks self ++ f_passed f |}.

(** [m] returns [a] and emits [f], whatever the buckets held before. *)
Definition emits {A : Type} (m : M A) (self : NISTOutputValidator) (a : A) (f : findings)
  : Prop :=
  m self = Ok (a, emit self f).

(** How often [msg] occurs in a bucket. *)
Definition count_msg (msg : pystr) (l : list pystr) : nat :=
  length (filter (pystr_eqb msg) l).

(** [needle] occurs in [hay]. *)
Definition occurs (needle hay : pystr) : Prop :=
  exists pre post, hay = pre ++ needle ++ post.

(** ** Section presence *)

Definition section_finding (content section : pystr) : findings :=
  if contains section content
  then one_pass (section_found_msg section)
  else one_error (section_missing_msg section).

Definition sections_findings (content : pystr) (sections : list pystr) : findings :=
  fconcat (map (section_finding content) sections).

(** What the check says about one heading [h] when it emitted [f]. *)
Definition section_reported (content : pystr) (f : findings) (h : pystr) : Prop :=
  (occurs h content /\
   count_msg (section_found_msg h) (f_passed f) = 1 /\
   count_msg (section_missing_msg h) (f_errors f) = 0) \/
  (~ occurs h content /\
   count_msg (section_found_msg h) (f_passed f) = 0 /\
   count_msg (section_missing_msg h) (f_errors f) = 1).

(** ** The matcher against a declarative reading of patterns *)

Definition quant_ok (q : quant) (n : nat) : Prop :=
  match q with
  | QOne => n = 1
  | QStar => True
  | QPlus => 1 <= n
  | QRep k => n = k
  end.

(** [m] is in the language of [r]: it splits into one block per item, each
    block made of characters of the item's class and of a length its
    quantifier allows. *)
Fixpoint matches (ignorecase : bool) (r : regex) (m : pystr) : Prop :=
  match r with
  | [] => m = []
  | (cs, q) :: r' =>
      exists a b, m = a ++ b /\ forallb (cset_match ignorecase cs) a = true /\
                  quant_ok q (length a) /\ matches ignorecase r' b
  end.

(** ** The patterns of the module, compiled *)

Definition lit (c : ascii) : cset * quant := (COne (ALit c), QOne).

Definition literal (s : pystr) : regex := map lit s.

Definition date_re : regex :=
  [(COne ADigit, QRep 4); lit "-"; (COne ADigit, QRep 2); lit "-"; (COne ADigit, QRep 2)].

Definition url_re : regex :=
  literal (py "https://csrc.nist.gov") ++ [(CNeg [ASpace; ALit ")"], QPlus)].

Definition correct_re : regex :=
  literal (py "https://csrc.nist.gov/pubs/sp/") ++
  [(COne ADigit, QPlus); lit "/"; (CNeg [ALit "/"; ASpace], QPlus)] ++
  literal (py "/final").

Definition table_re : regex :=
  [lit "|"; (COne AAny, QStar); lit "|"; (COne AAny, QStar); lit "|"].

(** *** Dates *)

(** The context [_get_context] cuts around a match [(m.start(), m.end())]. *)
Definition date_window (content : pystr) (m : nat * nat) : pystr :=
  slice content (Nat.max 0 (fst m - 200)) (Nat.min (length content) (snd m + 200)).

Definition pattern_finding (content pub_id : pystr) (info : pub_info) (r : regex) : findings :=
  match re_search true r content with
  | None => no_findings
  | Some m =>
      let dates_found := re_findall false date_re (date_window content m) in
      if str_in (date info) dates_found
      then one_pass (correct_date_msg pub_id (date info))
      else match dates_found with
           | found :: _ => one_warning (incorrect_date_msg pub_id (date info) found)
           | [] => no_findings
           end
  end.

(** The compiled patterns of a publication id, when both exist. *)
Definition pub_regexes (pub_id : pystr) : option (regex * regex) :=
  match pub_patterns pub_id with
  | Ok [p1; p2] =>
      match re_compile p1, re_compile p2 with
      | Some r1, Some r2 => Some (r1, r2)
      | _, _ => None
      end
  | _ => None
  end.

Definition pub_findings (content : pystr) (item : pystr * pub_info) : findings :=
  match pub_regexes (fst item) with
  | Some (r1, r2) =>
      fapp (pattern_finding content (fst item) (snd item) r1)
           (pattern_finding content (fst item) (snd item) r2)
  | None => no_findings
  end.

Definition dates_findings (content : pystr) (pubs : list (pystr * pub_info)) : findings :=
  fconcat (map (pub_findings content) pubs).

(** *** Invalid references *)

Definition invalid_finding (content invalid_pub : pystr) : findings :=
  if contains invalid_pub content
  then one_error (invalid_pub_msg invalid_pub)
  else one_pass (no_invalid_pub_msg invalid_pub).

(** *** URLs *)

Definition url_finding (url : pystr) : findings :=
  match re_match false correct_re url with
  | Some _ => one_pass (correct_url_msg url)
  | None => one_warning (check_url_msg url)
  end.

Definition urls_findings (content : pystr) : findings :=
  fconcat (map url_finding (re_findall false url_re content)).

(** *** Tables *)

Definition tables_finding (content : pystr) : findings :=
  let rows := length (re_findall false table_re content) in
  if 5 <? rows then one_warning (multiple_tables_msg rows) else one_pass single_table_msg.

(** *** Coverage *)

Definition coverage_finding (content : pystr) : findings :=
  match filter (fun p => negb (contains p content)) key_pubs with
  | [] => one_pass all_key_pubs_msg
  | missing => one_warning (missing_pubs_msg missing)
  end.

(** ** A whole run *)

(** The validator as [__init__] leaves its tables, whatever its buckets hold. *)
Definition constructed (self : NISTOutputValidator) : Prop :=
  verified_pubs self = verified_pubs __init__ /\
  invalid_pubs self = invalid_pubs __init__.

(** The findings of the six checks on [content], in the order they run. *)
Definition run_findings (content : pystr) : findings :=
  fconcat [sections_findings content required_sections;
           dates_findings content (verified_pubs __init__);
           fconcat (map (invalid_finding content) (invalid_pubs __init__));
           urls_findings content;
           tables_finding content;
           coverage_finding content].

(** The dictionary [_generate_report] returns for given buckets. *)
Definition report_dict (self : NISTOutputValidator) : dict :=
  match errors self, warnings self with
  | _ :: _, _ =>
      [(py "status", VStr (py "failed")); (py "errors", VInt (length (errors self)))]
  | [], _ :: _ =>
      [(py "status", VStr (py "passed_with_warnings"));
       (py "warnings", VInt (length (warnings self)))]
  | [], [] => [(py "status", VStr (py "passed"))]
  end.

(** ** The returned dictionary *)

(** A validator that holds one error and one warning. *)
Definition one_of_each : NISTOutputValidator :=
  emit __init__ {| f_errors := [py "e"]; f_warnings := [py "w"]; f_passed := [] |}.

(** ** Runs on one validator *)

(** A report that passes every check. *)
Definition clean_report : pystr := py "# Executive Summary
## Latest Updates Discovered
## Impact on Software Development Organizations
## Key Actions and Checklist
SP 800-218A (2024-07-26), SP 800-218 (2022-02-04), SP 800-171, SP 800-204D (2024-02-01)
https://csrc.nist.gov/pubs/sp/800/218/final
## References and Citations
## Quick Reference Table
| Publication | Date |
|---|---|
| SP 800-218 | 2022-02-04 |
".

(** Two files: an empty one and the clean report. *)
Definition two_files : filesystem := fun path =>
  if pystr_eqb path (py "first.md") then Ok []
  else if pystr_eqb path (py "second.md") then Ok clean_report
  else Raise FileNotFoundError.

Definition after_first : NISTOutputValidator := emit __init__ (run_findings []).

Definition after_second : NISTOutputValidator := emit after_first (run_findings clean_report).

Definition fresh_second : NISTOutputValidator := emit __init__ (run_findings clean_report).

Definition url_218a : pystr := py "https://csrc.nist.gov/pubs/sp/800/218/a/final".

Definition url_210 : pystr := py "https://csrc.nist.gov/pubs/sp/800/210/".

Definition url_218 : pystr := py "https://csrc.nist.gov/pubs/sp/800/218/final".

(** ** The pattern of the entry csf-2.0 *)

(** [800-2.0], compiled. *)
Definition csf_re : regex :=
  [lit "8"; lit "0"; lit "0"; lit "-"; lit "2"; (COne AAny, QOne); lit "0"].

Definition text_800_230 : pystr := py "SP 800-230 was published on 2024-02-26.".

Definition text_800_210 : pystr := py "SP 800-210 (2020-07-31) covers access control.".

(** ** Table rows *)

(** The two character tests of [\|.*\|.*\|]. *)
Definition is_pipe (c : ascii) : bool := Ascii.eqb c "|".

Definition not_newline (c : ascii) : bool := negb (Ascii.eqb c newline).

Definition count_pipes (line : pystr) : nat := length (filter is_pipe line).

Definition is_table_row (line : pystr) : bool := 3 <=? count_pipes line.

(** The lines of the text that contain three or more pipe characters. *)
Definition table_rows (content : pystr) : nat :=
  length (filter is_table_row (split newline content)).

(** Pipes from the start of [s] to the end of its first line. *)
Fixpoint line_pipes (s : pystr) : nat :=
  match s with
  | [] => 0
  | c :: s' =>
      if not_newline c then (if is_pipe c then 1 else 0) + line_pipes s' else 0
  end.

(** Table rows among the lines after the first. *)
Definition later_rows (s : pystr) : nat :=
  length (filter is_table_row (tl (split newline s))).

(** The tails of the pattern, as the matcher runs them. *)
Definition row_tail3 : pystr -> option nat := re_rep is_pipe 1 (fun _ => Some 0).

Definition row_tail2 : pystr -> option nat := re_star not_newline row_tail3.

Definition row_tail1 : pystr -> option nat :=
  re_star not_newline (re_rep is_pipe 1 row_tail2).

(** A match of length [n] stays on the first line of [s] and leaves no pipe
    on the rest of that line. *)
Definition ends_line (s : pystr) (n : nat) : Prop :=
  n <= length s /\ forallb not_newline (firstn n s) = true /\
  line_pipes (skipn n s) = 0.

(** Six lines with two pipes each. *)
Definition six_two_pipe_lines : pystr := py "|a|
|b|
|c|
|d|
|e|
|f|
".

(** The strings [\d{4}-\d{2}-\d{2}] matches. *)
Definition iso_date (d : pystr) : Prop :=
  exists y m dd,
    d = y ++ "-"%char :: m ++ "-"%char :: dd /\
    length y = 4 /\ length m = 2 /\ length dd = 2 /\
    forallb is_digit (y ++ m ++ dd) = true.

(** What the check says about one pattern [r] of the record [item] when it
    emitted [f] for it. *)
Definition pattern_reported (content : pystr) (item : pystr * pub_info) (r : regex)
  (f : findings) : Prop :=
  match re_search true r content with
  | None => f = no_findings
  | Some m =>
      let dates_found := re_findall false date_re (date_window content m) in
      (In (date (snd item)) dates_found /\
       f = one_pass (correct_date_msg (fst item) (date (snd item)))) \/
      (~ In (date (snd item)) dates_found /\
       exists found rest,
         dates_found = found :: rest /\
         f = one_warning (incorrect_date_msg (fst item) (date (snd item)) found)) \/
      (dates_found = [] /\ f = no_findings)
  end.

Definition pub_800_218A : pystr * pub_info :=
  (py "800-218A", pub "2024-07-26" "SSDF Community Profile for Generative AI").

Definition text_no_date : pystr := py "See SP 800-218A.".

Definition text_both_forms : pystr := py "800-218A (2024-07-26), also written SP 800 218A".

(** * Vocabulary of the further properties *)

(** ** Invalid references and coverage *)

(** What the invalid-reference check says about one identifier [p] when it
    emitted [f]. *)
Definition invalid_reported (content : pystr) (f : findings) (p : pystr) : Prop :=
  (occurs p content /\
   count_msg (invalid_pub_msg p) (f_errors f) = 1 /\
   count_msg (no_invalid_pub_msg p) (f_passed f) = 0) \/
  (~ occurs p content /\
   count_msg (invalid_pub_msg p) (f_errors f) = 0 /\
   count_msg (no_invalid_pub_msg p) (f_passed f) = 1).

(** [missing] lists, in the order of [key_pubs], the key publications that
    do not occur in [content]. *)
Definition missing_key_pubs (content : pystr) (missing : list pystr) : Prop :=
  exists absent : pystr -> bool,
    (forall p, absent p = true <-> ~ occurs p content) /\
    missing = filter absent key_pubs.

(** ** The counts of [_generate_report] *)

(** [total_checks], as [_generate_report] computes it for its summary. *)
Definition total_checks (self : NISTOutputValidator) : nat :=
  length (passed_checks self) + length (warnings self) + length (errors self).

(** ** Dates and URLs *)

(** [d] stands within 200 characters of the first match of the pattern [r]. *)
Definition near_match (content : pystr) (r : regex) (d : pystr) : Prop :=
  exists m, re_search true r content = Some m /\ occurs d (date_window content m).

(** [d] stands within 200 characters of the first match of one of the two
    patterns of the record [item]. *)
Definition near_mention (content : pystr) (item : pystr * pub_info) (d : pystr) : Prop :=
  exists r1 r2,
    pub_regexes (fst item) = Some (r1, r2) /\
    (near_match content r1 d \/ near_match content r2 d).

(** What a finding of the date check for the record [item] says: a Pass
    names the canonical date, and that date stands near a mention; a Warning
    names the canonical date and a date near a mention that is another one. *)
Definition date_finding_sound (content : pystr) (item : pystr * pub_info) (f : findings)
  : Prop :=
  (forall msg, In msg (f_passed f) ->
     msg = correct_date_msg (fst item) (date (snd item)) /\
     near_mention content item (date (snd item))) /\
  (forall msg, In msg (f_warnings f) ->
     exists found,
       msg = incorrect_date_msg (fst item) (date (snd item)) found /\
       iso_date found /\ near_mention content item found /\ found <> date (snd item)).

(** A character that may stand in the last segment before [/final]. *)
Definition segment_char (c : ascii) : bool := negb (Ascii.eqb c "/" || is_space c).

(** The URLs [correct_pattern] matches: the publication path, a number, one
    segment and [/final], followed by anything. *)
Definition url_well_formed (url : pystr) : Prop :=
  exists number segment rest,
    url = py "https://csrc.nist.gov/pubs/sp/" ++ number ++ "/"%char :: segment ++
          py "/final" ++ rest /\
    number <> [] /\ forallb is_digit number = true /\
    segment <> [] /\ forallb segment_char segment = true.

(** A character that may stand in an extracted URL after the host. *)
Definition url_char (c : ascii) : bool := negb (is_space c || Ascii.eqb c ")").

(** The strings [url_pattern] matches. *)
Definition url_shaped (url : pystr) : Prop :=
  exists tail,
    url = py "https://csrc.nist.gov" ++ tail /\
    tail <> [] /\ forallb url_char tail = true.

(** [url] stands in [content] and runs up to the end of the text, a
    whitespace character or a closing parenthesis. *)
Definition url_extent (content url : pystr) : Prop :=
  exists pre post,
    content = pre ++ url ++ post /\
    (post = [] \/ exists c post', post = c :: post' /\ url_char c = false).

(** ** A key without a hyphen *)

(** A validator whose reference table has one record, under a key that has
    no hyphen. *)
Definition validator_with_plain_key : NISTOutputValidator := {|
  verified_pubs := [(py "csf2", pub "2024-02-26" "Cybersecurity Framework 2.0")];
  invalid_pubs := [];
  errors := [];
  warnings := [];
  passed_checks := []
|}.

(** ** A run without warnings *)

(** The pattern [r] of the record [item] matches the text and the dates found
    around its first match do not include the canonical date. *)
Definition date_mismatch (content : pystr) (item : pystr * pub_info) (r : regex) : Prop :=
  exists m found rest,
    re_search true r content = Some m /\
    re_findall false date_re (date_window content m) = found :: rest /\
    ~ In (date (snd item)) (found :: rest).

(** Neither pattern of the record [item] gives a date mismatch. *)
Definition dates_agree (content : pystr) (item : pystr * pub_info) : Prop :=
  exists r1 r2,
    pub_regexes (fst item) = Some (r1, r2) /\
    ~ date_mismatch content item r1 /\ ~ date_mismatch content item r2.

(** ** Records whose patterns overlap *)

(** The first patterns of the records 800-218 and 800-218A, compiled. *)
Definition re_800_218 : regex := literal (py "800-218").

Definition re_800_218A : regex := literal (py "800-218A").

(** * Properties *)

(** ** Strings *)

Lemma pystr_eqb_spec (a b : pystr) : pystr_eqb a b = true <-> a = b.
Proof.
  revert b; induction a as [|x a IH]; intros [|y b]; simpl; split; try congruence; auto.
  - rewrite andb_true_iff, Ascii.eqb_eq, IH. intros [-> ->]; reflexivity.
  - intros [= -> ->]. rewrite andb_true_iff, Ascii.eqb_eq, IH. auto.
Qed.

Lemma pystr_eqb_refl (a : pystr) : pystr_eqb a a = true.
Proof. apply pystr_eqb_spec; reflexivity. Qed.

Lemma str_in_spec (x : pystr) (l : list pystr) : str_in x l = true <-> In x l.
Proof.
  unfold str_in. rewrite existsb_exists. split.
  - intros (y & Hy & E). apply pystr_eqb_spec in E. subst; assumption.
  - intros H. exists x. split; [assumption | apply pystr_eqb_refl].
Qed.

Lemma starts_with_spec (p s : pystr) : starts_with p s = true <-> exists t, s = p ++ t.
Proof.
  revert s; induction p as [|a p IH]; intros s; simpl.
  - split; [intros _; exists s; reflexivity | reflexivity].
  - destruct s as [|b s].
    + split; [discriminate | intros (t & H); discriminate].
    + rewrite andb_true_iff, Ascii.eqb_eq, IH. split.
      * intros (-> & t & ->). exists t; reflexivity.
      * intros (t & [= -> ->]). split; [reflexivity | exists t; reflexivity].
Qed.

Lemma contains_spec (needle hay : pystr) : contains needle hay = true <-> occurs needle hay.
Proof.
  unfold occurs. induction hay as [|c hay IH]; simpl.
  - rewrite orb_false_r, starts_with_spec. split.
    + intros (t & H). exists [], t. exact H.
    + intros (pre & post & H). destruct pre; simpl in H.
      * exists post; exact H.
      * discriminate.
  - rewrite orb_true_iff, starts_with_spec, IH. split.
    + intros [(t & H) | (pre & post & H)].
      * exists [], t. exact H.
      * exists (c :: pre), post. simpl. rewrite H. reflexivity.
    + intros (pre & post & H). destruct pre as [|c' pre]; simpl in H.
      * left. exists post. exact H.
      * right. injection H as _ H. exists pre, post. exact H.
Qed.

Lemma contains_false (needle hay : pystr) : contains needle hay = false <-> ~ occurs needle hay.
Proof.
  rewrite <- contains_spec. destruct (contains needle hay); split; congruence.
Qed.

(** ** Findings and the monad *)

Lemma fapp_nil_l (f : findings) : fapp no_findings f = f.
Proof. destruct f; reflexivity. Qed.

Lemma fapp_nil_r (f : findings) : fapp f no_findings = f.
Proof. destruct f; unfold fapp; simpl; rewrite !app_nil_r; reflexivity. Qed.

Lemma fapp_assoc (f g h : findings) : fapp f (fapp g h) = fapp (fapp f g) h.
Proof. unfold fapp; simpl; rewrite !app_assoc; reflexivity. Qed.

Lemma emit_nil (self : NISTOutputValidator) : emit self no_findings = self.
Proof. destruct self; unfold emit; simpl; rewrite !app_nil_r; reflexivity. Qed.

Lemma emit_emit (self : NISTOutputValidator) (f g : findings) :
  emit (emit self f) g = emit self (fapp f g).
Proof. unfold emit; simpl; rewrite !app_assoc; reflexivity. Qed.

Lemma fcount_fapp (f g : findings) : fcount (fapp f g) = fcount f + fcount g.
Proof. unfold fcount, fapp; simpl; rewrite !length_app; lia. Qed.

Lemma emits_ret {A : Type} (a : A) (self : NISTOutputValidator) : emits (ret a) self a no_findings.
Proof. unfold emits, ret. rewrite emit_nil. reflexivity. Qed.

Lemma emits_bind {A B : Type} (m : M A) (k : A -> M B) self a f b g :
  emits m self a f -> emits (k a) (emit self f) b g ->
  emits (bind m k) self b (fapp f g).
Proof.
  unfold emits, bind. intros -> ->. rewrite emit_emit. reflexivity.
Qed.

Lemma emits_errors_append (msg : pystr) self : emits (errors_append msg) self tt (one_error msg).
Proof. unfold emits, errors_append, emit; simpl. rewrite !app_nil_r. reflexivity. Qed.

Lemma emits_warnings_append (msg : pystr) self :
  emits (warnings_append msg) self tt (one_warning msg).
Proof. unfold emits, warnings_append, emit; simpl. rewrite !app_nil_r. reflexivity. Qed.

Lemma emits_passed_checks_append (msg : pystr) self :
  emits (passed_checks_append msg) self tt (one_pass msg).
Proof. unfold emits, passed_checks_append, emit; simpl. rewrite !app_nil_r. reflexivity. Qed.

(** A loop whose body emits [F x] at [x], from any state the loop can be in,
    emits the [F x] in order. [inv] is what the body needs of [self]. *)
Lemma emits_for_each {A : Type} (inv : NISTOutputValidator -> Prop)
  (body : A -> M unit) (F : A -> findings) (l : list A) :
  (forall self f, inv self -> inv (emit self f)) ->
  (forall x self, In x l -> inv self -> emits (body x) self tt (F x)) ->
  forall self, inv self -> emits (for_each l body) self tt (fconcat (map F l)).
Proof.
  intros Hinv. induction l as [|x l IH]; intros Hbody self Hself; simpl.
  - apply emits_ret.
  - eapply emits_bind.
    + apply Hbody; [left; reflexivity | assumption].
    + apply IH.
      * intros y s Hy. apply Hbody. right; assumption.
      * apply Hinv; assumption.
Qed.

Lemma f_passed_fapp (f g : findings) : f_passed (fapp f g) = f_passed f ++ f_passed g.
Proof. reflexivity. Qed.

Lemma f_errors_fapp (f g : findings) : f_errors (fapp f g) = f_errors f ++ f_errors g.
Proof. reflexivity. Qed.

Lemma f_warnings_fapp (f g : findings) : f_warnings (fapp f g) = f_warnings f ++ f_warnings g.
Proof. reflexivity. Qed.

Lemma count_msg_app (msg : pystr) (l1 l2 : list pystr) :
  count_msg msg (l1 ++ l2) = count_msg msg l1 + count_msg msg l2.
Proof. unfold count_msg. rewrite filter_app, length_app. reflexivity. Qed.

Lemma count_msg_cons (msg x : pystr) (l : list pystr) :
  count_msg msg (x :: l) = (if pystr_eqb msg x then 1 else 0) + count_msg msg l.
Proof. unfold count_msg; simpl. destruct (pystr_eqb msg x); reflexivity. Qed.

Lemma pystr_eqb_app_head (p a b : pystr) : pystr_eqb (p ++ a) (p ++ b) = pystr_eqb a b.
Proof.
  induction p as [|c p IH]; simpl; [reflexivity|].
  rewrite Ascii.eqb_refl. exact IH.
Qed.

(** ** Section presence *)

Lemma emits_check_required_sections (content : pystr) (self : NISTOutputValidator) :
  emits (_check_required_sections content) self tt
        (sections_findings content required_sections).
Proof.
  unfold _check_required_sections, sections_findings.
  apply emits_for_each with (inv := fun _ => True); auto.
  intros section s _ _. unfold section_finding.
  destruct (contains section content).
  - apply emits_passed_checks_append.
  - apply emits_errors_append.
Qed.

Lemma sections_passed_count (content h : pystr) (l : list pystr) :
  count_msg (section_found_msg h) (f_passed (sections_findings content l)) =
  if contains h content then count_msg h l else 0.
Proof.
  unfold sections_findings. induction l as [|x l IH]; simpl.
  - destruct (contains h content); reflexivity.
  - rewrite count_msg_app, IH, count_msg_cons. unfold section_finding.
    destruct (pystr_eqb h x) eqn:E.
    + apply pystr_eqb_spec in E. subst x.
      destruct (contains h content); simpl; [|reflexivity].
      unfold section_found_msg at 1 2. rewrite count_msg_cons, pystr_eqb_app_head, pystr_eqb_refl.
      reflexivity.
    + destruct (contains x content); simpl.
      * unfold section_found_msg at 1 2. rewrite count_msg_cons, pystr_eqb_app_head, E.
        destruct (contains h content); reflexivity.
      * destruct (contains h content); reflexivity.
Qed.

Lemma sections_errors_count (content h : pystr) (l : list pystr) :
  count_msg (section_missing_msg h) (f_errors (sections_findings content l)) =
  if contains h content then 0 else count_msg h l.
Proof.
  unfold sections_findings. induction l as [|x l IH]; simpl.
  - destruct (contains h content); reflexivity.
  - rewrite count_msg_app, IH, count_msg_cons. unfold section_finding.
    destruct (pystr_eqb h x) eqn:E.
    + apply pystr_eqb_spec in E. subst x.
      destruct (contains h content); simpl; [reflexivity|].
      unfold section_missing_msg at 1 2. rewrite count_msg_cons, pystr_eqb_app_head, pystr_eqb_refl.
      reflexivity.
    + destruct (contains x content); simpl.
      * destruct (contains h content); reflexivity.
      * unfold section_missing_msg at 1 2. rewrite count_msg_cons, pystr_eqb_app_head, E.
        destruct (contains h content); reflexivity.
Qed.

Lemma sections_fcount (content : pystr) (l : list pystr) :
  fcount (sections_findings content l) = length l /\
  f_warnings (sections_findings content l) = [].
Proof.
  unfold sections_findings. induction l as [|x l [IH1 IH2]]; simpl; [split; reflexivity|].
  rewrite fcount_fapp, IH1. simpl. rewrite IH2. unfold section_finding.
  destruct (contains x content); split; reflexivity.
Qed.

(** C4. For every report text, and whatever the buckets hold before, the
    section-presence check returns normally and emits six findings, none of
    them a warning: for each of the six required headings exactly one Pass
    finding ("Section found") when the heading occurs in the text as a
    case-sensitive substring, and exactly one Error naming the heading
    ("Missing required section") when it does not. *)
Theorem required_sections_reported (content : pystr) (self : NISTOutputValidator) :
  required_sections =
    [py "Executive Summary"; py "Latest Updates Discovered";
     py "Impact on Software Development Organizations";
     py "Key Actions and Checklist"; py "References and Citations";
     py "Quick Reference Table"] /\
  exists f,
    _check_required_sections content self = Ok (tt, emit self f) /\
    fcount f = 6 /\ f_warnings f = [] /\
    Forall (section_reported content f) required_sections.
Proof.
  split; [reflexivity|].
  exists (sections_findings content required_sections).
  split; [apply emits_check_required_sections|].
  destruct (sections_fcount content required_sections) as [Hn Hw].
  split; [exact Hn|]. split; [exact Hw|].
  apply Forall_forall. intros h Hh. unfold section_reported.
  rewrite sections_passed_count, sections_errors_count.
  assert (Hc : count_msg h required_sections = 1).
  { simpl in Hh. repeat (destruct Hh as [<- | Hh]; [vm_compute; reflexivity|]). contradiction. }
  rewrite Hc. destruct (contains h content) eqn:E.
  - left. split; [apply contains_spec; exact E | split; reflexivity].
  - right. split; [apply contains_false; exact E | split; reflexivity].
Qed.

(** ** The matcher against a declarative reading of patterns *)

Section Continuations.

Variable f : ascii -> bool.
Variable k : pystr -> option nat.

Lemma re_rep_sound (n : nat) (s : pystr) (l : nat) :
  re_rep f n k s = Some l ->
  exists a b l', s = a ++ b /\ length a = n /\ forallb f a = true /\
                 k b = Some l' /\ l = n + l'.
Proof.
  revert s l. induction n as [|n IH]; intros s l; simpl.
  - intros H. exists [], s, l. auto.
  - destruct s as [|c s]; [discriminate|].
    destruct (f c) eqn:Ec; [|discriminate].
    destruct (re_rep f n k s) as [l0|] eqn:E; [|discriminate].
    intros [= <-]. destruct (IH _ _ E) as (a & b & l' & -> & <- & Ha & Hk & ->).
    exists (c :: a), b, l'. simpl. rewrite Ec, Ha. auto.
Qed.

Lemma re_rep_app (a b : pystr) :
  forallb f a = true ->
  re_rep f (length a) k (a ++ b) = option_map (Nat.add (length a)) (k b).
Proof.
  induction a as [|c a IH]; simpl.
  - intros _. destruct (k b); reflexivity.
  - rewrite andb_true_iff. intros [-> Ha]. rewrite (IH Ha).
    destruct (k b); reflexivity.
Qed.

Lemma re_star_sound (s : pystr) (l : nat) :
  re_star f k s = Some l ->
  exists a b l', s = a ++ b /\ forallb f a = true /\ k b = Some l' /\ l = length a + l'.
Proof.
  revert l. induction s as [|c s IH]; intros l; simpl.
  - intros H. exists [], [], l. auto.
  - destruct (f c) eqn:Ec.
    + destruct (re_star f k s) as [l0|] eqn:E.
      * intros [= <-]. destruct (IH _ eq_refl) as (a & b & l' & -> & Ha & Hk & ->).
        exists (c :: a), b, l'. simpl. rewrite Ec, Ha. auto.
      * intros H. exists [], (c :: s), l. auto.
    + intros H. exists [], (c :: s), l. auto.
Qed.

Lemma re_star_complete (a b : pystr) :
  forallb f a = true -> k b <> None -> re_star f k (a ++ b) <> None.
Proof.
  induction a as [|c a IH]; simpl.
  - intros _ Hk. destruct b as [|c b]; simpl; [exact Hk|].
    destruct (f c); [|exact Hk].
    destruct (re_star f k b); [discriminate | exact Hk].
  - rewrite andb_true_iff. intros [-> Ha] Hk.
    specialize (IH Ha Hk).
    destruct (re_star f k (a ++ b)); [discriminate | congruence].
Qed.

End Continuations.

Lemma re_match_here_sound (ic : bool) (r : regex) (s : pystr) (n : nat) :
  re_match_here ic r s = Some n ->
  exists m t, s = m ++ t /\ length m = n /\ matches ic r m.
Proof.
  revert s n. induction r as [|[cs q] r IH]; intros s n; cbn [re_match_here].
  - intros [= <-]. exists [], s. simpl. auto.
  - destruct q as [| | |k]; intros H.
    + apply re_rep_sound in H. destruct H as (a & b & l' & -> & Ha & Hf & Hk & ->).
      destruct (IH _ _ Hk) as (m & t & -> & <- & Hm).
      exists (a ++ m), t. rewrite app_assoc, length_app, Ha. repeat split; auto.
      exists a, m. auto.
    + apply re_star_sound in H. destruct H as (a & b & l' & -> & Hf & Hk & ->).
      destruct (IH _ _ Hk) as (m & t & -> & <- & Hm).
      exists (a ++ m), t. rewrite app_assoc, length_app. repeat split; auto.
      exists a, m. simpl. auto.
    + apply re_rep_sound in H. destruct H as (a & b & l' & -> & Ha & Hf & Hk & ->).
      apply re_star_sound in Hk. destruct Hk as (a' & b' & l'' & -> & Hf' & Hk & ->).
      destruct (IH _ _ Hk) as (m & t & -> & <- & Hm).
      exists ((a ++ a') ++ m), t. rewrite !length_app, <- !app_assoc, Ha.
      split; [reflexivity|]. split; [lia|].
      exists (a ++ a'), m. rewrite forallb_app, Hf, Hf', length_app, Ha, app_assoc. simpl.
      repeat split; auto; lia.
    + apply re_rep_sound in H. destruct H as (a & b & l' & -> & Ha & Hf & Hk & ->).
      destruct (IH _ _ Hk) as (m & t & -> & <- & Hm).
      exists (a ++ m), t. rewrite app_assoc, length_app, Ha. repeat split; auto.
      exists a, m. auto.
Qed.

Lemma re_match_here_complete (ic : bool) (r : regex) (m t : pystr) :
  matches ic r m -> re_match_here ic r (m ++ t) <> None.
Proof.
  revert m. induction r as [|[cs q] r IH]; intros m; cbn [re_match_here matches].
  - discriminate.
  - intros (a & b & -> & Hf & Hq & Hb). specialize (IH _ Hb).
    rewrite <- app_assoc. destruct q as [| | |k]; simpl in Hq.
    + rewrite <- Hq, re_rep_app by assumption.
      destruct (re_match_here ic r (b ++ t)); [discriminate | congruence].
    + apply re_star_complete; assumption.
    + destruct a as [|c a]; [simpl in Hq; lia|]. simpl in Hf |- *.
      apply andb_true_iff in Hf. destruct Hf as [-> Hf].
      pose proof (re_star_complete (cset_match ic cs) _ a (b ++ t) Hf IH) as H.
      destruct (re_star _ _ (a ++ b ++ t)); [discriminate | congruence].
    + rewrite <- Hq, re_rep_app by assumption.
      destruct (re_match_here ic r (b ++ t)); [discriminate | congruence].
Qed.

Lemma re_match_here_length (ic : bool) (r : regex) (s : pystr) (n : nat) :
  re_match_here ic r s = Some n -> n <= length s.
Proof.
  intros H. apply re_match_here_sound in H. destruct H as (m & t & -> & <- & _).
  rewrite length_app. lia.
Qed.

(** [re.search] finds a match, and the leftmost position that has one. *)
Lemma re_search_from_spec (ic : bool) (r : regex) (s : pystr) (pos : nat) :
  match re_search_from ic r s pos with
  | Some (i, j) =>
      pos <= i /\ i - pos <= length s /\
      re_match_here ic r (skipn (i - pos) s) = Some (j - i) /\ i <= j /\
      forall d, d < i - pos -> re_match_here ic r (skipn d s) = None
  | None => forall d, d <= length s -> re_match_here ic r (skipn d s) = None
  end.
Proof.
  revert pos. induction s as [|c s IH]; intros pos; simpl.
  - destruct (re_match_here ic r []) as [n|] eqn:E.
    + replace (pos - pos) with 0 by lia. replace (pos + n - pos) with n by lia.
      simpl. repeat split; auto; try lia.
    + intros d Hd. destruct d; [exact E | lia].
  - destruct (re_match_here ic r (c :: s)) as [n|] eqn:E.
    + replace (pos - pos) with 0 by lia. replace (pos + n - pos) with n by lia.
      simpl. repeat split; auto; try lia.
    + specialize (IH (S pos)). destruct (re_search_from ic r s (S pos)) as [[i j]|].
      * destruct IH as (H1 & H2 & H3 & H4 & H5).
        replace (i - pos) with (S (i - S pos)) by lia. simpl.
        repeat split; auto; try lia.
        intros [|d] Hd; [exact E|]. simpl. apply H5. lia.
      * intros [|d] Hd; [exact E|]. simpl. apply IH. lia.
Qed.

Lemma re_search_some (ic : bool) (r : regex) (s : pystr) (i j : nat) :
  re_search ic r s = Some (i, j) ->
  exists pre m post, s = pre ++ m ++ post /\ length pre = i /\ length (pre ++ m) = j /\
    matches ic r m /\
    forall d, d < i -> re_match_here ic r (skipn d s) = None.
Proof.
  unfold re_search. intros H. pose proof (re_search_from_spec ic r s 0) as S.
  rewrite H in S. rewrite Nat.sub_0_r in S. destruct S as (_ & Hi & Hm & Hij & Hleft).
  apply re_match_here_sound in Hm. destruct Hm as (m & post & Hs & Hl & Hm).
  exists (firstn i s), m, post. rewrite <- Hs, firstn_skipn, length_app, firstn_length_le by lia.
  repeat split; auto. lia.
Qed.

Lemma re_search_none (ic : bool) (r : regex) (s : pystr) :
  re_search ic r s = None ->
  forall pre m post, s = pre ++ m ++ post -> ~ matches ic r m.
Proof.
  unfold re_search. intros H pre m post -> Hm.
  pose proof (re_search_from_spec ic r (pre ++ m ++ post) 0) as S. rewrite H in S.
  specialize (S (length pre)). rewrite skipn_app, skipn_all, Nat.sub_diag in S. simpl in S.
  apply (re_match_here_complete _ _ _ post Hm). apply S. rewrite length_app. lia.
Qed.

(** ** The patterns of the module *)

Lemma date_pattern_compiles : re_compile date_pattern = Some date_re.
Proof. reflexivity. Qed.

Lemma url_pattern_compiles : re_compile url_pattern = Some url_re.
Proof. reflexivity. Qed.

Lemma correct_pattern_compiles : re_compile correct_pattern = Some correct_re.
Proof. reflexivity. Qed.

Lemma table_pattern_compiles : re_compile table_pattern = Some table_re.
Proof. reflexivity. Qed.

(** ** What each check emits *)

Lemma bind_lift_ok {A B : Type} (a : A) (k : A -> M B) (self : NISTOutputValidator) :
  bind (lift (Ok a)) k self = k a self.
Proof. reflexivity. Qed.

Lemma bind_get_self {B : Type} (k : NISTOutputValidator -> M B) (self : NISTOutputValidator) :
  bind get_self k self = k self self.
Proof. reflexivity. Qed.

Lemma emits_check_pub_pattern (content pub_id : pystr) (info : pub_info)
  (pattern : pystr) (r : regex) (self : NISTOutputValidator) :
  re_compile pattern = Some r ->
  emits (check_pub_pattern content pub_id info pattern) self tt
        (pattern_finding content pub_id info r).
Proof.
  intros Hr. unfold emits, check_pub_pattern, pattern_finding, _get_context, py_re_search,
    py_re_findall, date_window.
  rewrite Hr, date_pattern_compiles, bind_lift_ok.
  destruct (re_search true r content) as [[m_start m_end]|].
  - cbn [rbind fst snd]. rewrite !bind_lift_ok.
    destruct (str_in _ _).
    + apply emits_passed_checks_append.
    + destruct (re_findall false date_re _) as [|found rest].
      * apply emits_ret.
      * cbn [index nth_error]. rewrite bind_lift_ok. apply emits_warnings_append.
  - apply emits_ret.
Qed.

Lemma emits_check_pub_dates (content : pystr) (item : pystr * pub_info)
  (self : NISTOutputValidator) :
  pub_regexes (fst item) <> None ->
  emits (check_pub_dates content item) self tt (pub_findings content item).
Proof.
  destruct item as [pub_id info]. unfold pub_findings, pub_regexes, check_pub_dates. simpl fst. simpl snd.
  destruct (pub_patterns pub_id) as [[|p1 [|p2 [|p3 ps]]]|e]; try congruence.
  destruct (re_compile p1) as [r1|] eqn:E1; try congruence.
  destruct (re_compile p2) as [r2|] eqn:E2; try congruence.
  intros _. unfold emits. rewrite bind_lift_ok. cbn [for_each].
  eapply emits_bind; [apply emits_check_pub_pattern; exact E1|].
  rewrite <- (fapp_nil_r (pattern_finding content pub_id info r2)).
  eapply emits_bind; [apply emits_check_pub_pattern; exact E2|].
  apply emits_ret.
Qed.

Lemma verified_pubs_compile :
  Forall (fun item => pub_regexes (fst item) <> None) (verified_pubs __init__).
Proof. repeat constructor; vm_compute; discriminate. Qed.

Lemma emits_check_publication_dates (content : pystr) (self : NISTOutputValidator) :
  verified_pubs self = verified_pubs __init__ ->
  emits (_check_publication_dates content) self tt
        (dates_findings content (verified_pubs __init__)).
Proof.
  intros Hself. unfold emits, _check_publication_dates. rewrite bind_get_self, Hself.
  apply emits_for_each with (inv := fun _ => True); auto.
  intros item s Hitem _. apply emits_check_pub_dates.
  exact (proj1 (Forall_forall _ _) verified_pubs_compile item Hitem).
Qed.

Lemma emits_check_invalid_publications (content : pystr) (self : NISTOutputValidator) :
  emits (_check_invalid_publications content) self tt
        (fconcat (map (invalid_finding content) (invalid_pubs self))).
Proof.
  unfold emits, _check_invalid_publications. rewrite bind_get_self.
  apply emits_for_each with (inv := fun _ => True); auto.
  intros p s _ _. unfold invalid_finding. destruct (contains p content).
  - apply emits_errors_append.
  - apply emits_passed_checks_append.
Qed.

Lemma emits_check_urls (content : pystr) (self : NISTOutputValidator) :
  emits (_check_urls content) self tt (urls_findings content).
Proof.
  unfold emits, _check_urls, urls_findings, py_re_findall.
  rewrite url_pattern_compiles, bind_lift_ok.
  apply emits_for_each with (inv := fun _ => True); auto.
  intros url s _ _. unfold url_finding, py_re_match, emits.
  rewrite correct_pattern_compiles, bind_lift_ok.
  destruct (re_match false correct_re url).
  - apply emits_passed_checks_append.
  - apply emits_warnings_append.
Qed.

Lemma emits_check_duplicate_tables (content : pystr) (self : NISTOutputValidator) :
  emits (_check_duplicate_tables content) self tt (tables_finding content).
Proof.
  unfold emits, _check_duplicate_tables, tables_finding, py_re_findall.
  rewrite table_pattern_compiles, bind_lift_ok. cbv zeta.
  destruct (5 <? _).
  - apply emits_warnings_append.
  - apply emits_passed_checks_append.
Qed.

Lemma emits_check_publication_coverage (content : pystr) (self : NISTOutputValidator) :
  emits (_check_publication_coverage content) self tt (coverage_finding content).
Proof.
  unfold emits, _check_publication_coverage, coverage_finding. cbv zeta.
  destruct (filter _ key_pubs).
  - apply emits_passed_checks_append.
  - apply emits_warnings_append.
Qed.

(** ** A whole run *)

Lemma constructed_emit (self : NISTOutputValidator) (f : findings) :
  constructed self -> constructed (emit self f).
Proof. intros H. exact H. Qed.

Lemma constructed_init : constructed __init__.
Proof. split; reflexivity. Qed.

Lemma generate_report_returns (self : NISTOutputValidator) :
  _generate_report self = Ok (report_dict self, self).
Proof.
  unfold _generate_report, report_dict. rewrite bind_get_self.
  destruct (errors self); [destruct (warnings self)|]; reflexivity.
Qed.

Lemma run_checks_returns (content : pystr) (self : NISTOutputValidator) :
  constructed self ->
  run_checks content self =
    Ok (report_dict (emit self (run_findings content)), emit self (run_findings content)).
Proof.
  intros [Hv Hi]. unfold run_checks, run_findings, fconcat, fold_right.
  rewrite fapp_nil_r.
  unfold bind at 1. rewrite emits_check_required_sections.
  unfold bind at 1. rewrite emits_check_publication_dates by exact Hv. rewrite emit_emit.
  unfold bind at 1. rewrite emits_check_invalid_publications. simpl invalid_pubs at 1.
  rewrite Hi, emit_emit.
  unfold bind at 1. rewrite emits_check_urls, emit_emit.
  unfold bind at 1. rewrite emits_check_duplicate_tables, emit_emit.
  unfold bind at 1. rewrite emits_check_publication_coverage, emit_emit.
  rewrite generate_report_returns, <- !fapp_assoc. reflexivity.
Qed.

Lemma report_dict_status (self : NISTOutputValidator) :
  exists status,
    getitem (report_dict self) (py "status") = Ok (VStr status) /\
    ((errors self <> [] /\ status = py "failed") \/
     (errors self = [] /\ warnings self <> [] /\ status = py "passed_with_warnings") \/
     (errors self = [] /\ warnings self = [] /\ status = py "passed")).
Proof.
  unfold report_dict. destruct (errors self) as [|e es]; [destruct (warnings self) as [|w ws]|].
  - exists (py "passed"). split; [reflexivity|]. right; right. auto.
  - exists (py "passed_with_warnings"). split; [reflexivity|]. right; left.
    repeat split; auto; discriminate.
  - exists (py "failed"). split; [reflexivity|]. left. split; [discriminate | reflexivity].
Qed.

(** C1. The report's status is "failed" exactly when the errors bucket is
    non-empty, "passed_with_warnings" exactly when the errors bucket is
    empty and the warnings bucket is not, and "passed" exactly when both are
    empty: every combination of bucket contents gets one of the three. And
    a validation run returns the report of the buckets it ends with. *)
Theorem verdict_by_buckets :
  (forall self : NISTOutputValidator,
     exists report status,
       _generate_report self = Ok (report, self) /\
       getitem report (py "status") = Ok (VStr status) /\
       (status = py "failed" <-> errors self <> []) /\
       (status = py "passed_with_warnings" <-> (errors self = [] /\ warnings self <> [])) /\
       (status = py "passed" <-> (errors self = [] /\ warnings self = []))) /\
  (forall (content : pystr) (before : findings),
     exists report self',
       run_checks content (emit __init__ before) = Ok (report, self') /\
       _generate_report self' = Ok (report, self')).
Proof.
  split.
  - intros self. exists (report_dict self).
    destruct (report_dict_status self) as (status & Hs & Hcases).
    exists status. split; [apply generate_report_returns|]. split; [exact Hs|].
    destruct Hcases as [(He & ->) | [(He & Hw & ->) | (He & Hw & ->)]].
    + split; [|split]; split; intros H; try (vm_compute in H; discriminate H); tauto.
    + split; [|split]; split; intros H; try (vm_compute in H; discriminate H); tauto.
    + split; [|split]; split; intros H; try (vm_compute in H; discriminate H); tauto.
  - intros content before. eexists _, _. split.
    + apply run_checks_returns. apply constructed_emit, constructed_init.
    + apply generate_report_returns.
Qed.

(** ** The returned dictionary *)

(** C7, as stated, fails: the report of a validator holding one error and one
    warning has no key "warnings", and the report of a validator with empty
    buckets has neither count. *)
Lemma report_lacks_counts :
  (exists report,
     _generate_report one_of_each = Ok (report, one_of_each) /\
     getitem report (py "status") = Ok (VStr (py "failed")) /\
     getitem report (py "errors") = Ok (VInt 1) /\
     getitem report (py "warnings") = Raise KeyError) /\
  (exists report,
     _generate_report __init__ = Ok (report, __init__) /\
     getitem report (py "status") = Ok (VStr (py "passed")) /\
     getitem report (py "errors") = Raise KeyError /\
     getitem report (py "warnings") = Raise KeyError).
Proof.
  split; eexists; (split; [reflexivity|]); repeat split; reflexivity.
Qed.

(** C7, amended. The returned dictionary always has the status, one of the
    three strings; it has the number of errors, and no number of warnings,
    when the status is "failed"; the number of warnings, and no number of
    errors, when the status is "passed_with_warnings"; and no count at all
    when the status is "passed". *)
Theorem report_contents (self : NISTOutputValidator) :
  exists report,
    _generate_report self = Ok (report, self) /\
    ((errors self <> [] /\
      report = [(py "status", VStr (py "failed"));
                (py "errors", VInt (length (errors self)))] /\
      getitem report (py "errors") = Ok (VInt (length (errors self))) /\
      getitem report (py "warnings") = Raise KeyError) \/
     (errors self = [] /\ warnings self <> [] /\
      report = [(py "status", VStr (py "passed_with_warnings"));
                (py "warnings", VInt (length (warnings self)))] /\
      getitem report (py "warnings") = Ok (VInt (length (warnings self))) /\
      getitem report (py "errors") = Raise KeyError) \/
     (errors self = [] /\ warnings self = [] /\
      report = [(py "status", VStr (py "passed"))] /\
      getitem report (py "warnings") = Raise KeyError /\
      getitem report (py "errors") = Raise KeyError)).
Proof.
  exists (report_dict self). split; [apply generate_report_returns|].
  unfold report_dict. destruct (errors self) as [|e es]; [destruct (warnings self) as [|w ws]|].
  - right; right. repeat split; reflexivity.
  - right; left. repeat split; try reflexivity. discriminate.
  - left. repeat split; try reflexivity. discriminate.
Qed.

(** ** The process *)

Lemma validate_file_reads (fs : filesystem) (filepath : pystr) (self : NISTOutputValidator) :
  validate_file fs filepath self =
  match fs filepath with
  | Ok content =>
      match run_checks content self with
      | Ok (report, self') => Returned report self'
      | Raise _ => SysExit 1
      end
  | Raise _ => SysExit 1
  end.
Proof.
  unfold validate_file, bind, lift. destruct (fs filepath) as [content|e].
  - destruct (run_checks content self) as [[report self']|e]; [reflexivity|].
    destruct e; reflexivity.
  - destruct e; reflexivity.
Qed.

(** C8. With a path on the command line, the process ends with code 1 when
    opening or reading the file raises (the file is missing, or any other
    exception), and otherwise the run returns a report whose status is one
    of the three strings: the process ends with code 1 when it is "failed"
    and with code 0 when it is "passed_with_warnings" or "passed". *)
Theorem main_exit_code (fs : filesystem) (prog path : pystr) (rest : list pystr) :
  match fs path with
  | Raise _ => main fs (prog :: path :: rest) = 1
  | Ok content =>
      exists report self' status,
        run_checks content __init__ = Ok (report, self') /\
        getitem report (py "status") = Ok (VStr status) /\
        ((status = py "failed" /\ main fs (prog :: path :: rest) = 1) \/
         (status = py "passed_with_warnings" /\ main fs (prog :: path :: rest) = 0) \/
         (status = py "passed" /\ main fs (prog :: path :: rest) = 0))
  end.
Proof.
  unfold main. cbn [length Nat.ltb Nat.leb index nth_error].
  rewrite validate_file_reads. destruct (fs path) as [content|e]; [|reflexivity].
  rewrite (run_checks_returns content constructed_init).
  set (self' := emit __init__ (run_findings content)).
  exists (report_dict self'), self'.
  destruct (report_dict_status self') as (status & Hs & Hcases).
  exists status. split; [reflexivity|]. split; [exact Hs|]. rewrite Hs.
  destruct Hcases as [(_ & ->) | [(_ & _ & ->) | (_ & _ & ->)]].
  - left. split; reflexivity.
  - right; left. split; reflexivity.
  - right; right. split; reflexivity.
Qed.

(** ** Runs on one validator *)

(** C6, as stated, fails: a validator that has validated the empty file and
    then validates the clean report still holds the six errors of the first
    run, and returns "failed" for a text that a fresh validator passes. *)
Lemma reused_validator_keeps_findings :
  validate_file two_files (py "first.md") __init__ =
    Returned (report_dict after_first) after_first /\
  validate_file two_files (py "second.md") after_first =
    Returned (report_dict after_second) after_second /\
  validate_file two_files (py "second.md") __init__ =
    Returned (report_dict fresh_second) fresh_second /\
  report_dict fresh_second = [(py "status", VStr (py "passed"))] /\
  errors fresh_second = [] /\
  report_dict after_second = [(py "status", VStr (py "failed")); (py "errors", VInt 6)] /\
  errors after_second = errors after_first /\
  In (section_missing_msg (py "Executive Summary")) (errors after_second).
Proof.
  do 7 (split; [vm_compute; reflexivity|]).
  vm_compute. left. reflexivity.
Qed.

(** C6, amended. A validation run appends to the buckets the findings of the
    six checks on its own report text, and these depend on that text only.
    The buckets are emptied only by [__init__]: a run on a freshly
    constructed validator ends with exactly the findings of its text, and a
    later run on the same validator keeps the earlier findings in front of
    its own and reports on all of them. *)
Theorem run_appends_findings (fs : filesystem) (path content : pystr) (before : findings)
  (Hread : fs path = Ok content) :
  let self' := emit __init__ (fapp before (run_findings content)) in
  validate_file fs path (emit __init__ before) = Returned (report_dict self') self' /\
  errors self' = f_errors before ++ f_errors (run_findings content) /\
  warnings self' = f_warnings before ++ f_warnings (run_findings content) /\
  passed_checks self' = f_passed before ++ f_passed (run_findings content) /\
  validate_file fs path __init__ =
    Returned (report_dict (emit __init__ (run_findings content)))
             (emit __init__ (run_findings content)).
Proof.
  intros self'. split; [|repeat split].
  - rewrite validate_file_reads, Hread.
    rewrite (run_checks_returns content (constructed_emit before constructed_init)).
    rewrite emit_emit. reflexivity.
  - rewrite validate_file_reads, Hread.
    rewrite (run_checks_returns content constructed_init). reflexivity.
Qed.

Lemma run_appends_findings_witness :
  two_files (py "second.md") = Ok clean_report /\
  (let self' := emit __init__ (fapp (run_findings []) (run_findings clean_report)) in
   validate_file two_files (py "second.md") (emit __init__ (run_findings [])) =
     Returned (report_dict self') self' /\
   errors self' = f_errors (run_findings []) ++ f_errors (run_findings clean_report) /\
   warnings self' = f_warnings (run_findings []) ++ f_warnings (run_findings clean_report) /\
   passed_checks self' = f_passed (run_findings []) ++ f_passed (run_findings clean_report) /\
   validate_file two_files (py "second.md") __init__ =
     Returned (report_dict (emit __init__ (run_findings clean_report)))
              (emit __init__ (run_findings clean_report))).
Proof.
  split; [reflexivity|].
  exact (@run_appends_findings two_files (py "second.md") clean_report (run_findings [])
           eq_refl).
Defined.

(** ** URL format *)

Lemma urls_fcount (content : pystr) :
  fcount (urls_findings content) = length (re_findall false url_re content) /\
  f_errors (urls_findings content) = [].
Proof.
  unfold urls_findings. induction (re_findall false url_re content) as [|url urls [IH1 IH2]].
  - split; reflexivity.
  - simpl. rewrite fcount_fapp, IH1, IH2. unfold url_finding.
    destruct (re_match false correct_re url); split; reflexivity.
Qed.

(** C3 at its two examples. Every extracted URL gets one finding, a Pass or
    a Warning. The URL of SP 800-218A, whose path has the revision component
    [a] between [218] and [final], is extracted whole and gets a Warning, not
    the Pass the claim gives it: [[^/\s]+] takes [218] and [/final] does not
    follow. The URL without [/final] gets a Warning, and the URL of
    SP 800-218 a Pass. *)
Theorem url_with_revision_component (self : NISTOutputValidator) :
  (forall content,
     exists f, _check_urls content self = Ok (tt, emit self f) /\
               fcount f = length (re_findall false url_re content) /\
               f_errors f = []) /\
  re_findall false url_re url_218a = [url_218a] /\
  re_match false correct_re url_218a = None /\
  _check_urls url_218a self = Ok (tt, emit self (one_warning (check_url_msg url_218a))) /\
  _check_urls url_210 self = Ok (tt, emit self (one_warning (check_url_msg url_210))) /\
  _check_urls url_218 self = Ok (tt, emit self (one_pass (correct_url_msg url_218))).
Proof.
  split.
  { intros content. exists (urls_findings content).
    split; [apply emits_check_urls | apply urls_fcount]. }
  split; [vm_compute; reflexivity|]. split; [vm_compute; reflexivity|].
  rewrite !emits_check_urls.
  split; [|split]; do 3 f_equal; vm_compute; reflexivity.
Qed.

(** ** The pattern of the entry csf-2.0 *)

(** C10. The entry csf-2.0 is looked up by the patterns [800-2.0] and
    [SP csf 2.0], and in the first the dot compiles to the any-character
    item: it matches [800-2], any character but a newline, [0]. A text that
    has neither "2.0" nor the letters "csf" in any case but mentions 800-230
    next to the date 2024-02-26 gets a Pass for csf-2.0, and one that
    mentions 800-210 next to another date gets a Warning for csf-2.0. *)
Theorem csf_pattern_matches_other_ids (self : NISTOutputValidator)
  (Hself : constructed self) :
  pub_patterns (py "csf-2.0") = Ok [py "800-2.0"; py "SP csf 2.0"] /\
  re_compile (py "800-2.0") = Some csf_re /\
  (forall c : ascii,
     re_match true csf_re (py "800-2" ++ c :: py "0") =
     if Ascii.eqb c newline then None else Some 7) /\
  contains (py "2.0") text_800_230 = false /\
  re_search true (literal (py "csf")) text_800_230 = None /\
  _check_publication_dates text_800_230 self =
    Ok (tt, emit self (one_pass (correct_date_msg (py "csf-2.0") (py "2024-02-26")))) /\
  contains (py "2.0") text_800_210 = false /\
  re_search true (literal (py "csf")) text_800_210 = None /\
  _check_publication_dates text_800_210 self =
    Ok (tt, emit self (one_warning
      (incorrect_date_msg (py "csf-2.0") (py "2024-02-26") (py "2020-07-31")))).
Proof.
  destruct Hself as [Hv _]. rewrite (emits_check_publication_dates text_800_230 self Hv),
    (emits_check_publication_dates text_800_210 self Hv).
  do 2 (split; [vm_compute; reflexivity|]).
  split; [intros [[] [] [] [] [] [] [] []]; vm_compute; reflexivity|].
  do 2 (split; [vm_compute; reflexivity|]).
  split; [do 3 f_equal; vm_compute; reflexivity|].
  do 2 (split; [vm_compute; reflexivity|]).
  do 3 f_equal; vm_compute; reflexivity.
Qed.

Lemma csf_pattern_matches_other_ids_witness :
  constructed __init__ /\
  (pub_patterns (py "csf-2.0") = Ok [py "800-2.0"; py "SP csf 2.0"] /\
   re_compile (py "800-2.0") = Some csf_re /\
   (forall c : ascii,
      re_match true csf_re (py "800-2" ++ c :: py "0") =
      if Ascii.eqb c newline then None else Some 7) /\
   contains (py "2.0") text_800_230 = false /\
   re_search true (literal (py "csf")) text_800_230 = None /\
   _check_publication_dates text_800_230 __init__ =
     Ok (tt, emit __init__ (one_pass (correct_date_msg (py "csf-2.0") (py "2024-02-26")))) /\
   contains (py "2.0") text_800_210 = false /\
   re_search true (literal (py "csf")) text_800_210 = None /\
   _check_publication_dates text_800_210 __init__ =
     Ok (tt, emit __init__ (one_warning
       (incorrect_date_msg (py "csf-2.0") (py "2024-02-26") (py "2020-07-31"))))).
Proof.
  split; [exact constructed_init|].
  exact (@csf_pattern_matches_other_ids __init__ constructed_init).
Defined.

(** ** Table rows *)

Lemma is_pipe_not_newline (c : ascii) : not_newline c = false -> is_pipe c = false.
Proof.
  unfold not_newline, is_pipe. rewrite negb_false_iff, Ascii.eqb_eq. intros ->. reflexivity.
Qed.

Lemma split_cons (sep : ascii) (s : pystr) :
  split sep s = hd [] (split sep s) :: tl (split sep s).
Proof.
  destruct s as [|c s]; simpl; [reflexivity|].
  destruct (Ascii.eqb c sep); [reflexivity|].
  destruct (split sep s); reflexivity.
Qed.

Lemma split_newline_cons (c : ascii) (s : pystr) :
  split newline (c :: s) =
  if not_newline c
  then (c :: hd [] (split newline s)) :: tl (split newline s)
  else [] :: split newline s.
Proof.
  cbn [split]. unfold not_newline. destruct (Ascii.eqb c newline); cbn [negb]; [reflexivity|].
  rewrite (split_cons newline s) at 1. reflexivity.
Qed.

Lemma split_hd_pipes (s : pystr) : count_pipes (hd [] (split newline s)) = line_pipes s.
Proof.
  induction s as [|c s IH]; [reflexivity|].
  rewrite split_newline_cons. cbn [line_pipes].
  destruct (not_newline c); [|reflexivity].
  cbn [hd]. unfold count_pipes in *. cbn [filter].
  destruct (is_pipe c); cbn [length]; rewrite IH; reflexivity.
Qed.

Lemma table_rows_line (s : pystr) :
  table_rows s = (if 3 <=? line_pipes s then 1 else 0) + later_rows s.
Proof.
  unfold table_rows, later_rows. rewrite (split_cons newline s) at 1.
  cbn [filter]. unfold is_table_row at 1. rewrite split_hd_pipes.
  destruct (3 <=? line_pipes s); reflexivity.
Qed.

Lemma later_rows_cons (c : ascii) (s : pystr) :
  later_rows (c :: s) = if not_newline c then later_rows s else table_rows s.
Proof.
  unfold later_rows, table_rows. rewrite split_newline_cons.
  destruct (not_newline c); reflexivity.
Qed.

Lemma table_re_unfold (s : pystr) :
  re_match_here false table_re s = re_rep is_pipe 1 row_tail1 s.
Proof. reflexivity. Qed.

Lemma re_star_cons (f : ascii -> bool) (k : pystr -> option nat) (c : ascii) (s : pystr) :
  re_star f k (c :: s) =
  if f c then match re_star f k s with Some n => Some (S n) | None => k (c :: s) end
  else k (c :: s).
Proof. reflexivity. Qed.

Lemma re_rep_one_cons (f : ascii -> bool) (k : pystr -> option nat) (c : ascii) (s : pystr) :
  re_rep f 1 k (c :: s) = if f c then option_map S (k s) else None.
Proof. reflexivity. Qed.

Lemma ends_line_cons (c : ascii) (s : pystr) (n : nat) :
  not_newline c = true -> ends_line s n -> ends_line (c :: s) (S n).
Proof.
  unfold ends_line. intros Hc (H1 & H2 & H3). cbn [length firstn skipn forallb].
  rewrite Hc, H2. repeat split; [lia | exact H3].
Qed.

Lemma ends_line_one (c : ascii) (s : pystr) :
  not_newline c = true -> line_pipes s = 0 -> ends_line (c :: s) 1.
Proof.
  unfold ends_line. intros Hc H. cbn [length firstn skipn forallb].
  rewrite Hc. repeat split; [lia | exact H].
Qed.

Lemma row_tail2_spec (s : pystr) :
  match row_tail2 s with
  | Some n => 1 <= line_pipes s /\ ends_line s n
  | None => line_pipes s = 0
  end.
Proof.
  unfold row_tail2. induction s as [|c s IH]; [reflexivity|].
  rewrite re_star_cons. unfold row_tail3 at 2 3. rewrite re_rep_one_cons.
  cbn [line_pipes option_map].
  destruct (not_newline c) eqn:En.
  - destruct (re_star not_newline row_tail3 s) as [n|].
    + destruct IH as [H1 H2]. split; [lia | apply ends_line_cons; assumption].
    + destruct (is_pipe c).
      * split; [lia | apply ends_line_one; assumption].
      * exact IH.
  - rewrite (is_pipe_not_newline _ En). reflexivity.
Qed.

Lemma row_tail1_spec (s : pystr) :
  match row_tail1 s with
  | Some n => 2 <= line_pipes s /\ ends_line s n
  | None => line_pipes s < 2
  end.
Proof.
  unfold row_tail1. induction s as [|c s IH]; [cbn; lia|].
  rewrite re_star_cons, re_rep_one_cons. cbn [line_pipes].
  destruct (not_newline c) eqn:En.
  - destruct (re_star not_newline (re_rep is_pipe 1 row_tail2) s) as [n|].
    + destruct IH as [H1 H2]. split; [lia | apply ends_line_cons; assumption].
    + destruct (is_pipe c); [|exact IH].
      pose proof (row_tail2_spec s) as T2. destruct (row_tail2 s) as [n|]; cbn [option_map].
      * destruct T2 as [H1 H2]. split; [lia | apply ends_line_cons; assumption].
      * lia.
  - rewrite (is_pipe_not_newline _ En). lia.
Qed.

Lemma table_re_match_spec (c : ascii) (s : pystr) :
  match re_match_here false table_re (c :: s) with
  | Some n => 3 <= line_pipes (c :: s) /\ 1 <= n /\ ends_line (c :: s) n
  | None => not_newline c = true -> (3 <=? line_pipes (c :: s)) = (3 <=? line_pipes s)
  end.
Proof.
  rewrite table_re_unfold, re_rep_one_cons. cbn [line_pipes].
  destruct (is_pipe c) eqn:Ep.
  - pose proof (row_tail1_spec s) as T1. destruct (row_tail1 s) as [n|]; cbn [option_map].
    + destruct T1 as [H1 H2]. destruct (not_newline c) eqn:En.
      * split; [lia|]. split; [lia | apply ends_line_cons; assumption].
      * rewrite (is_pipe_not_newline _ En) in Ep. discriminate.
    + intros ->. destruct (line_pipes s) as [|[|p]]; [reflexivity | reflexivity | lia].
  - intros ->. reflexivity.
Qed.

Lemma later_rows_skipn (n : nat) (s : pystr) :
  forallb not_newline (firstn n s) = true -> later_rows (skipn n s) = later_rows s.
Proof.
  revert s. induction n as [|n IH]; intros [|c s]; cbn [firstn skipn forallb]; try reflexivity.
  rewrite andb_true_iff. intros [En H]. rewrite later_rows_cons, En. apply IH, H.
Qed.

(** [re.findall] counts the table rows: one match a line, on the lines with
    three pipes or more. *)
Lemma findall_table_rows (s : pystr) (skip : nat) :
  skip <= length s -> forallb not_newline (firstn skip s) = true ->
  length (re_findall_aux false table_re s skip) = table_rows (skipn skip s).
Proof.
  revert skip. induction s as [|c s IH]; intros skip Hlen Hline.
  - cbn [length] in Hlen. replace skip with 0 by lia. reflexivity.
  - destruct skip as [|skip].
    + cbn [re_findall_aux skipn].
      pose proof (table_re_match_spec c s) as M.
      destruct (re_match_here false table_re (c :: s)) as [n|].
      * destruct M as (H3 & Hn & Hl & Hf & Hp). destruct n as [|n]; [lia|].
        cbn [length pred]. cbn [length firstn skipn forallb] in Hl, Hf, Hp.
        apply andb_true_iff in Hf. destruct Hf as [Hc Hf].
        rewrite (IH n) by (assumption || lia).
        rewrite (table_rows_line (skipn n s)), Hp, (later_rows_skipn _ _ Hf).
        rewrite (table_rows_line (c :: s)), later_rows_cons, Hc.
        destruct (3 <=? line_pipes (c :: s)) eqn:E; [reflexivity|].
        apply Nat.leb_gt in E. lia.
      * rewrite (IH 0) by (cbn; auto; lia). cbn [skipn].
        rewrite (table_rows_line (c :: s)), later_rows_cons.
        destruct (not_newline c) eqn:En.
        -- rewrite (M eq_refl), <- table_rows_line. reflexivity.
        -- cbn [line_pipes]. rewrite En. reflexivity.
    + cbn [re_findall_aux skipn]. cbn [length firstn forallb] in Hlen, Hline.
      apply andb_true_iff in Hline. apply IH; [lia | apply Hline].
Qed.

Lemma findall_table_re (content : pystr) :
  length (re_findall false table_re content) = table_rows content.
Proof. apply findall_table_rows; [cbn; lia | reflexivity]. Qed.

(** C5, as stated, fails: six lines hold two pipe characters each, more than
    five lines with two or more pipes, and the check emits the Pass. *)
Lemma two_pipe_lines_not_counted :
  length (filter (fun line => 2 <=? count_pipes line) (split newline six_two_pipe_lines)) = 6 /\
  _check_duplicate_tables six_two_pipe_lines __init__ =
    Ok (tt, emit __init__ (one_pass single_table_msg)).
Proof. split; vm_compute; reflexivity. Qed.

(** C5, amended. For every report text the duplicate-table check emits
    exactly one finding: a Warning, giving the count, if more than 5 lines of
    the text contain three or more pipe characters, and a Pass otherwise. *)
Theorem duplicate_tables_reported (content : pystr) (self : NISTOutputValidator) :
  exists f,
    _check_duplicate_tables content self = Ok (tt, emit self f) /\
    fcount f = 1 /\
    ((5 < table_rows content /\
      f = one_warning (multiple_tables_msg (table_rows content))) \/
     (table_rows content <= 5 /\ f = one_pass single_table_msg)).
Proof.
  exists (tables_finding content). split; [apply emits_check_duplicate_tables|].
  unfold tables_finding. rewrite findall_table_re. cbv zeta.
  destruct (5 <? table_rows content) eqn:E.
  - apply Nat.ltb_lt in E. split; [reflexivity|]. left. split; [exact E | reflexivity].
  - apply Nat.ltb_ge in E. split; [reflexivity|]. right. split; [exact E | reflexivity].
Qed.

(** ** Dates near a publication *)

(** Every string [re.findall] returns is a match and occurs in the text. *)
Lemma re_findall_aux_matches (ic : bool) (r : regex) (s : pystr) (skip : nat) (x : pystr) :
  In x (re_findall_aux ic r s skip) -> matches ic r x /\ occurs x s.
Proof.
  revert skip. induction s as [|c s IH]; intros skip.
  - destruct skip as [|skip]; simpl; [|contradiction].
    destruct (re_match_here ic r []) as [n|] eqn:E; simpl; [|contradiction].
    intros [<- | []]. apply re_match_here_sound in E.
    destruct E as (m & t & Hs & Hl & Hm). symmetry in Hs. apply app_eq_nil in Hs.
    destruct Hs as [-> ->]. rewrite firstn_nil. split; [exact Hm|]. exists [], []. reflexivity.
  - assert (Hlater : forall k, In x (re_findall_aux ic r s k) -> matches ic r x /\ occurs x (c :: s)).
    { intros k Hk. destruct (IH _ Hk) as (Hm & pre & post & ->).
      split; [exact Hm|]. exists (c :: pre), post. reflexivity. }
    destruct skip as [|skip]; cbn [re_findall_aux]; [|apply Hlater].
    destruct (re_match_here ic r (c :: s)) as [n|] eqn:E; [|apply Hlater].
    intros [<- | Hx]; [|exact (Hlater _ Hx)].
    apply re_match_here_sound in E. destruct E as (m & t & Hs & Hl & Hm).
    rewrite Hs, <- Hl, firstn_app, Nat.sub_diag, firstn_all. simpl. rewrite app_nil_r.
    split; [exact Hm|]. exists [], t. reflexivity.
Qed.

Lemma re_findall_matches (ic : bool) (r : regex) (s x : pystr) :
  In x (re_findall ic r s) -> matches ic r x /\ occurs x s.
Proof. apply re_findall_aux_matches. Qed.

(** [re.findall] returns nothing exactly when [re.search] finds nothing. *)
Lemma re_findall_nil (ic : bool) (r : regex) (s : pystr) :
  re_findall ic r s = [] <-> re_search ic r s = None.
Proof.
  unfold re_findall, re_search.
  enough (H : forall pos, re_findall_aux ic r s 0 = [] <-> re_search_from ic r s pos = None)
    by apply H.
  induction s as [|c s IH]; intros pos; simpl.
  - destruct (re_match_here ic r []); split; congruence.
  - destruct (re_match_here ic r (c :: s)); [split; congruence|]. apply IH.
Qed.

Lemma date_re_matches (d : pystr) : matches false date_re d <-> iso_date d.
Proof.
  unfold iso_date, date_re, lit. simpl. split.
  - intros (y & b1 & -> & Hy & Ly & h1 & b2 & -> & Hh1 & Lh1 & m & b3 & -> & Hm & Lm &
            h2 & b4 & -> & Hh2 & Lh2 & dd & b5 & -> & Hd & Ld & ->).
    destruct h1 as [|c1 [|? ?]]; try discriminate Lh1.
    destruct h2 as [|c2 [|? ?]]; try discriminate Lh2.
    simpl in Hh1, Hh2. rewrite andb_true_r in Hh1, Hh2.
    apply Ascii.eqb_eq in Hh1, Hh2. subst c1 c2.
    change (forallb (cset_match false (COne ADigit))) with (forallb is_digit) in Hy, Hm, Hd.
    exists y, m, dd. rewrite app_nil_r, !forallb_app, Hy, Hm, Hd. simpl. auto.
  - intros (y & m & dd & -> & Ly & Lm & Ld & Hdig).
    rewrite !forallb_app in Hdig. apply andb_true_iff in Hdig. destruct Hdig as [Hy Hdig].
    apply andb_true_iff in Hdig. destruct Hdig as [Hm Hd].
    exists y, ("-"%char :: m ++ "-"%char :: dd). repeat split; auto.
    exists ["-"%char], (m ++ "-"%char :: dd). repeat split; auto.
    exists m, ("-"%char :: dd). repeat split; auto.
    exists ["-"%char], dd. repeat split; auto.
    exists dd, []. rewrite app_nil_r. repeat split; auto.
Qed.

(** The dates found near a match are ISO dates of the window. *)
Lemma dates_found_iso (window d : pystr) :
  In d (re_findall false date_re window) -> iso_date d /\ occurs d window.
Proof.
  intros H. apply re_findall_matches in H. destruct H as [Hm Ho].
  split; [apply date_re_matches; exact Hm | exact Ho].
Qed.

Lemma pattern_finding_reported (content : pystr) (item : pystr * pub_info) (r : regex) :
  pattern_reported content item r (pattern_finding content (fst item) (snd item) r).
Proof.
  unfold pattern_reported, pattern_finding.
  destruct (re_search true r content) as [m|]; [|reflexivity]. cbv zeta.
  destruct (str_in (date (snd item)) _) eqn:E.
  - left. split; [apply str_in_spec; exact E | reflexivity].
  - assert (Hnot : ~ In (date (snd item)) (re_findall false date_re (date_window content m))).
    { intros H. apply str_in_spec in H. congruence. }
    destruct (re_findall false date_re (date_window content m)) as [|found rest].
    + right; right. split; reflexivity.
    + right; left. split; [exact Hnot|]. exists found, rest. split; reflexivity.
Qed.

Lemma pattern_finding_fcount (content pub_id : pystr) (info : pub_info) (r : regex) :
  fcount (pattern_finding content pub_id info r) <= 1 /\
  f_errors (pattern_finding content pub_id info r) = [].
Proof.
  unfold pattern_finding. destruct (re_search true r content) as [m|]; [|split; cbn; lia || reflexivity].
  cbv zeta. destruct (str_in _ _); [split; cbn; lia || reflexivity|].
  destruct (re_findall _ _ _); split; cbn; lia || reflexivity.
Qed.

(** C2, as stated, fails: a text that mentions 800-218A with no date nearby
    gets no finding for it, and a text that has both the form 800-218A and
    the form SP 800 218A gets two. *)
Lemma mentioned_publication_not_one_finding :
  In pub_800_218A (verified_pubs __init__) /\
  pub_patterns (fst pub_800_218A) = Ok [py "800-218A"; py "SP 800 218A"] /\
  re_search true (literal (py "800-218A")) text_no_date = Some (7, 15) /\
  check_pub_dates text_no_date pub_800_218A __init__ = Ok (tt, __init__) /\
  check_pub_dates text_both_forms pub_800_218A __init__ =
    Ok (tt, emit __init__
              {| f_errors := []; f_warnings := [];
                 f_passed := [correct_date_msg (py "800-218A") (py "2024-07-26");
                              correct_date_msg (py "800-218A") (py "2024-07-26")] |}).
Proof.
  split; [left; reflexivity|].
  do 3 (split; [vm_compute; reflexivity|]). vm_compute; reflexivity.
Qed.

(** C2, amended. Each record of the reference table is looked up by two
    patterns, [800-] followed by the text after the first hyphen of its id
    and [SP] followed by the id with spaces for hyphens, both without regard
    to case. For each pattern that matches the text, the check takes the
    200 characters before and after the pattern's first match and the
    ISO-format dates [re.findall] returns there: it emits one Pass if the
    canonical date is among them, one Warning naming the expected and the
    first-found date if there are dates but not the canonical one, and
    nothing if there is no date. A pattern that does not match emits
    nothing. So a record gets at most two findings, none of them an error,
    and none at all when neither pattern matches; the check emits the
    findings of the records in table order. *)
Theorem publication_dates_reported (content : pystr) (self : NISTOutputValidator)
  (before : findings) :
  Forall (fun item =>
            exists p1 p2 r1 r2 f1 f2,
              pub_patterns (fst item) = Ok [p1; p2] /\
              re_compile p1 = Some r1 /\ re_compile p2 = Some r2 /\
              check_pub_dates content item self = Ok (tt, emit self (fapp f1 f2)) /\
              pattern_reported content item r1 f1 /\
              pattern_reported content item r2 f2 /\
              fcount (fapp f1 f2) <= 2 /\ f_errors (fapp f1 f2) = [] /\
              pub_findings content item = fapp f1 f2)
         (verified_pubs __init__) /\
  _check_publication_dates content (emit __init__ before) =
    Ok (tt, emit (emit __init__ before)
                 (fconcat (map (pub_findings content) (verified_pubs __init__)))).
Proof.
  split.
  - apply Forall_forall. intros item Hitem.
    pose proof (proj1 (Forall_forall _ _) verified_pubs_compile item Hitem) as Hc.
    pose proof (emits_check_pub_dates content item self Hc) as Hemit.
    unfold pub_findings in *. unfold pub_regexes in *.
    destruct (pub_patterns (fst item)) as [[|p1 [|p2 [|p3 ps]]]|e]; try congruence.
    destruct (re_compile p1) as [r1|] eqn:Hr1; try congruence.
    destruct (re_compile p2) as [r2|] eqn:Hr2; try congruence.
    exists p1, p2, r1, r2,
      (pattern_finding content (fst item) (snd item) r1),
      (pattern_finding content (fst item) (snd item) r2).
    destruct (pattern_finding_fcount content (fst item) (snd item) r1) as [N1 E1].
    destruct (pattern_finding_fcount content (fst item) (snd item) r2) as [N2 E2].
    split; [reflexivity|]. split; [exact Hr1|]. split; [exact Hr2|]. split; [exact Hemit|].
    do 2 (split; [apply pattern_finding_reported|]).
    split; [rewrite fcount_fapp; lia|].
    split; [rewrite f_errors_fapp, E1, E2; reflexivity | reflexivity].
  - apply emits_check_publication_dates. reflexivity.
Qed.

(** * Further properties *)

(** ** Invalid references *)

(** X1. On every report text the invalid-reference check of a constructed
    validator emits two findings, none of them a warning: for each of
    800-204C and 800-210 one Error naming it when it occurs in the text as a
    substring, and one Pass when it does not. *)
Theorem invalid_publications_reported (content : pystr) (before : findings) :
  exists f,
    _check_invalid_publications content (emit __init__ before) =
      Ok (tt, emit (emit __init__ before) f) /\
    fcount f = 2 /\ f_warnings f = [] /\
    Forall (invalid_reported content f) [py "800-204C"; py "800-210"].
Proof.
  eexists. split; [apply emits_check_invalid_publications|].
  cbn [invalid_pubs emit __init__ map fconcat fold_right]. unfold invalid_finding, invalid_reported.
  destruct (contains (py "800-204C") content) eqn:E1;
    destruct (contains (py "800-210") content) eqn:E2;
    (split; [reflexivity|]); (split; [reflexivity|]);
    (apply Forall_cons; [|apply Forall_cons; [|apply Forall_nil]]);
    solve [ left; split; [apply contains_spec; assumption | split; vm_compute; reflexivity]
          | right; split; [apply contains_false; assumption | split; vm_compute; reflexivity] ].
Qed.

(** ** Coverage *)

Lemma occurs_app_l (a b s : pystr) : occurs (a ++ b) s -> occurs a s.
Proof.
  intros (pre & post & ->). exists pre, (b ++ post). rewrite <- !app_assoc. reflexivity.
Qed.

Lemma coverage_missing (content : pystr) :
  missing_key_pubs content (filter (fun p => negb (contains p content)) key_pubs).
Proof.
  exists (fun p => negb (contains p content)). split; [|reflexivity].
  intros p. rewrite negb_true_iff. apply contains_false.
Qed.

(** X2. On every report text the coverage check emits exactly one finding:
    the Pass when each of the four key publications occurs in the text, and
    otherwise one Warning that lists, in the order of the key list and
    separated by a comma and a space, the key publications that do not
    occur. *)
Theorem coverage_reported (content : pystr) (self : NISTOutputValidator) :
  key_pubs = [py "800-218A"; py "800-218"; py "800-171"; py "800-204D"] /\
  exists f missing,
    _check_publication_coverage content self = Ok (tt, emit self f) /\
    missing_key_pubs content missing /\
    ((missing = [] /\ Forall (fun p => occurs p content) key_pubs /\
      f = one_pass all_key_pubs_msg) \/
     (missing <> [] /\
      f = one_warning (py "⚠ Key publications not mentioned: " ++ join (py ", ") missing))).
Proof.
  split; [reflexivity|].
  exists (coverage_finding content), (filter (fun p => negb (contains p content)) key_pubs).
  split; [apply emits_check_publication_coverage|]. split; [apply coverage_missing|].
  unfold coverage_finding.
  destruct (filter (fun p => negb (contains p content)) key_pubs) as [|m ms] eqn:E.
  - left. split; [reflexivity|]. split; [|reflexivity].
    apply Forall_forall. intros p Hp. apply contains_spec.
    destruct (contains p content) eqn:Ec; [reflexivity|].
    assert (Hin : In p (filter (fun p => negb (contains p content)) key_pubs)).
    { apply filter_In. split; [exact Hp | rewrite Ec; reflexivity]. }
    rewrite E in Hin. contradiction.
  - right. split; [discriminate | reflexivity].
Qed.

(** X3. The key 800-218 is a prefix of the key 800-218A, and the coverage
    check looks for substrings: whenever its Warning lists 800-218 as not
    mentioned it lists 800-218A too, so a text that mentions only 800-218A
    is never reported as missing 800-218. *)
Theorem coverage_218_follows_218A (content : pystr) (self : NISTOutputValidator) :
  exists f missing,
    _check_publication_coverage content self = Ok (tt, emit self f) /\
    (f = one_pass all_key_pubs_msg \/ f = one_warning (missing_pubs_msg missing)) /\
    (forall p, In p missing <-> In p key_pubs /\ ~ occurs p content) /\
    (In (py "800-218") missing -> In (py "800-218A") missing) /\
    (occurs (py "800-218A") content -> ~ In (py "800-218") missing).
Proof.
  exists (coverage_finding content), (filter (fun p => negb (contains p content)) key_pubs).
  split; [apply emits_check_publication_coverage|].
  assert (Hin : forall p, In p (filter (fun p => negb (contains p content)) key_pubs) <->
                          In p key_pubs /\ ~ occurs p content).
  { intros p. rewrite filter_In, negb_true_iff, contains_false. reflexivity. }
  assert (Hpre : occurs (py "800-218A") content -> occurs (py "800-218") content).
  { apply (occurs_app_l (py "800-218") (py "A")). }
  split; [|split; [exact Hin|split]].
  - unfold coverage_finding. destruct (filter _ key_pubs); [left | right]; reflexivity.
  - rewrite !Hin. intros [_ H]. split; [left; reflexivity | tauto].
  - rewrite Hin. tauto.
Qed.

(** ** Where errors come from *)

Lemma occurs_dec (p content : pystr) : occurs p content \/ ~ occurs p content.
Proof.
  destruct (contains p content) eqn:E.
  - left. apply contains_spec. exact E.
  - right. apply contains_false. exact E.
Qed.

Lemma sections_errors_nil (content : pystr) (l : list pystr) :
  f_errors (sections_findings content l) = [] <-> Forall (fun h => occurs h content) l.
Proof.
  unfold sections_findings. induction l as [|h l IH]; simpl.
  - split; [constructor | reflexivity].
  - unfold section_finding at 1. destruct (contains h content) eqn:E; simpl.
    + rewrite IH. split.
      * intros H. constructor; [apply contains_spec; exact E | exact H].
      * intros H. inversion H. assumption.
    + split; [discriminate|]. intros H. inversion H as [|? ? Hh _].
      apply contains_false in E. contradiction.
Qed.

Lemma invalid_errors_nil (content : pystr) (l : list pystr) :
  f_errors (fconcat (map (invalid_finding content) l)) = [] <->
  Forall (fun p => ~ occurs p content) l.
Proof.
  induction l as [|p l IH]; simpl.
  - split; [constructor | reflexivity].
  - unfold invalid_finding at 1. destruct (contains p content) eqn:E; simpl.
    + split; [discriminate|]. intros H. inversion H as [|? ? Hp _].
      apply contains_spec in E. contradiction.
    + rewrite IH. split.
      * intros H. constructor; [apply contains_false; exact E | exact H].
      * intros H. inversion H. assumption.
Qed.

Lemma pub_findings_fcount (content : pystr) (item : pystr * pub_info) :
  fcount (pub_findings content item) <= 2 /\ f_errors (pub_findings content item) = [].
Proof.
  unfold pub_findings. destruct (pub_regexes (fst item)) as [[r1 r2]|]; [|split; cbn; lia || reflexivity].
  destruct (pattern_finding_fcount content (fst item) (snd item) r1) as [N1 E1].
  destruct (pattern_finding_fcount content (fst item) (snd item) r2) as [N2 E2].
  rewrite fcount_fapp, f_errors_fapp, E1, E2. split; [lia | reflexivity].
Qed.

Lemma dates_fcount (content : pystr) (pubs : list (pystr * pub_info)) :
  fcount (dates_findings content pubs) <= 2 * length pubs /\
  f_errors (dates_findings content pubs) = [].
Proof.
  unfold dates_findings. induction pubs as [|item pubs [IH1 IH2]]; [split; cbn; lia || reflexivity|].
  cbn [map fconcat fold_right length].
  destruct (pub_findings_fcount content item) as [N E].
  rewrite fcount_fapp, f_errors_fapp, E. split; [|exact IH2].
  unfold fconcat in IH1. lia.
Qed.

Lemma tables_fcount (content : pystr) :
  fcount (tables_finding content) = 1 /\ f_errors (tables_finding content) = [].
Proof. unfold tables_finding. cbv zeta. destruct (5 <? _); split; reflexivity. Qed.

Lemma coverage_fcount (content : pystr) :
  fcount (coverage_finding content) = 1 /\ f_errors (coverage_finding content) = [].
Proof. unfold coverage_finding. destruct (filter _ key_pubs); split; reflexivity. Qed.

Lemma invalid_fcount (content : pystr) (l : list pystr) :
  fcount (fconcat (map (invalid_finding content) l)) = length l.
Proof.
  induction l as [|p l IH]; [reflexivity|].
  cbn [map fconcat fold_right length]. rewrite fcount_fapp. unfold fconcat in IH. rewrite IH.
  unfold invalid_finding. destruct (contains p content); reflexivity.
Qed.

(** The errors of a run are those of the section check and of the
    invalid-reference check. *)
Lemma run_errors (content : pystr) :
  f_errors (run_findings content) =
  f_errors (sections_findings content required_sections) ++
  f_errors (fconcat (map (invalid_finding content) (invalid_pubs __init__))).
Proof.
  unfold run_findings. cbn [fconcat fold_right]. rewrite !f_errors_fapp.
  rewrite (proj2 (dates_fcount content _)), (proj2 (urls_fcount content)),
    (proj2 (tables_fcount content)), (proj2 (coverage_fcount content)).
  cbn [f_errors no_findings]. rewrite !app_nil_r. reflexivity.
Qed.

Lemma run_errors_nil (content : pystr) :
  f_errors (run_findings content) = [] <->
  Forall (fun h => occurs h content) required_sections /\
  Forall (fun p => ~ occurs p content) [py "800-204C"; py "800-210"].
Proof.
  rewrite run_errors. rewrite <- sections_errors_nil.
  rewrite <- (invalid_errors_nil content [py "800-204C"; py "800-210"]).
  change (invalid_pubs __init__) with [py "800-204C"; py "800-210"].
  split.
  - intros H. apply app_eq_nil in H. exact H.
  - intros [-> ->]. reflexivity.
Qed.

Lemma run_fcount (content : pystr) :
  fcount (run_findings content) =
  10 + fcount (dates_findings content (verified_pubs __init__)) +
  length (re_findall false url_re content).
Proof.
  unfold run_findings. cbn [fconcat fold_right]. rewrite !fcount_fapp.
  rewrite (proj1 (sections_fcount content required_sections)), invalid_fcount,
    (proj1 (urls_fcount content)), (proj1 (tables_fcount content)),
    (proj1 (coverage_fcount content)).
  cbn. lia.
Qed.

(** X4. A run on a freshly constructed validator returns the status
    "failed" exactly when a required section heading does not occur in the
    text or one of the invalid identifiers 800-204C and 800-210 does: no
    finding of the date, URL, table or coverage checks makes a run fail. *)
Theorem run_fails_iff (content : pystr) :
  exists report self' status,
    run_checks content __init__ = Ok (report, self') /\
    getitem report (py "status") = Ok (VStr status) /\
    (status = py "failed" <->
     Exists (fun h => ~ occurs h content) required_sections \/
     Exists (fun p => occurs p content) [py "800-204C"; py "800-210"]).
Proof.
  set (self' := emit __init__ (run_findings content)).
  exists (report_dict self'), self'.
  destruct (report_dict_status self') as (status & Hs & Hcases). exists status.
  split; [apply (run_checks_returns content constructed_init)|]. split; [exact Hs|].
  assert (Herr : errors self' = [] <->
                 Forall (fun h => occurs h content) required_sections /\
                 Forall (fun p => ~ occurs p content) [py "800-204C"; py "800-210"])
    by apply run_errors_nil.
  assert (Hneg : ~ (Forall (fun h => occurs h content) required_sections /\
                    Forall (fun p => ~ occurs p content) [py "800-204C"; py "800-210"]) <->
                 Exists (fun h => ~ occurs h content) required_sections \/
                 Exists (fun p => occurs p content) [py "800-204C"; py "800-210"]).
  { split.
    - intros H.
      destruct (Forall_Exists_dec (fun h => occurs h content)
                  (fun h => match contains h content as b
                              return contains h content = b -> _ with
                            | true => fun E => left (proj1 (contains_spec h content) E)
                            | false => fun E => right (proj1 (contains_false h content) E)
                            end eq_refl) required_sections) as [Hall | Hex].
      + right. apply Exists_exists.
        destruct (occurs_dec (py "800-204C") content) as [H1 | H1];
          [exists (py "800-204C"); split; [left; reflexivity | exact H1]|].
        destruct (occurs_dec (py "800-210") content) as [H2 | H2];
          [exists (py "800-210"); split; [right; left; reflexivity | exact H2]|].
        exfalso. apply H. split; [exact Hall|]. repeat constructor; assumption.
      + left. exact Hex.
    - intros [Hex | Hex] [Hs' Hi].
      + apply Exists_exists in Hex. destruct Hex as (h & Hin & Hno).
        exact (Hno (proj1 (Forall_forall _ _) Hs' h Hin)).
      + apply Exists_exists in Hex. destruct Hex as (p & Hin & Hyes).
        exact (proj1 (Forall_forall _ _) Hi p Hin Hyes). }
  rewrite <- Hneg, <- Herr.
  destruct Hcases as [(He & ->) | [(He & _ & ->) | (He & _ & ->)]].
  - split; [intros _; exact He | reflexivity].
  - split; [intros H; vm_compute in H; discriminate H | intros H; contradiction].
  - split; [intros H; vm_compute in H; discriminate H | intros H; contradiction].
Qed.

(** ** The exit code *)

Lemma main_with_path (fs : filesystem) (prog path : pystr) (rest : list pystr) :
  main fs (prog :: path :: rest) =
  match fs path with
  | Ok content =>
      match f_errors (run_findings content) with
      | [] => 0
      | _ :: _ => 1
      end
  | Raise _ => 1
  end.
Proof.
  unfold main. cbn [length Nat.ltb Nat.leb index nth_error].
  rewrite validate_file_reads. destruct (fs path) as [content|e]; [|reflexivity].
  rewrite (run_checks_returns content constructed_init).
  unfold report_dict. cbn [errors warnings emit __init__ app].
  destruct (f_errors (run_findings content)); [|reflexivity].
  destruct (f_warnings (run_findings content)); reflexivity.
Qed.

(** X5. The process ends with code 0 or 1, and with 0 exactly when a path
    is given on the command line, the file at that path can be read, every
    required section heading occurs in its text and neither 800-204C nor
    800-210 does. Without a path argument it ends with 1 and reads no
    file. *)
Theorem main_exit_zero_iff (fs : filesystem) (argv : list pystr) :
  (main fs argv = 0 \/ main fs argv = 1) /\
  (length argv < 2 -> main fs argv = 1) /\
  (main fs argv = 0 <->
   exists prog path rest content,
     argv = prog :: path :: rest /\ fs path = Ok content /\
     Forall (fun h => occurs h content) required_sections /\
     Forall (fun p => ~ occurs p content) [py "800-204C"; py "800-210"]).
Proof.
  destruct argv as [|prog [|path rest]].
  - split; [right; reflexivity|]. split; [reflexivity|].
    split; [discriminate | intros (? & ? & ? & ? & H & _); discriminate H].
  - split; [right; reflexivity|]. split; [reflexivity|].
    split; [discriminate | intros (? & ? & ? & ? & H & _); discriminate H].
  - rewrite main_with_path. split; [|split].
    + destruct (fs path) as [content|e]; [|right; reflexivity].
      destruct (f_errors (run_findings content)); [left | right]; reflexivity.
    + cbn [length]. lia.
    + split.
      * intros H. destruct (fs path) as [content|e] eqn:Hfs; [|discriminate H].
        exists prog, path, rest, content. split; [reflexivity|]. split; [exact Hfs|].
        apply run_errors_nil. destruct (f_errors (run_findings content)); [reflexivity | discriminate H].
      * intros (prog' & path' & rest' & content & [= <- <- <-] & Hfs & Hs & Hi).
        rewrite Hfs. rewrite (proj2 (run_errors_nil content) (conj Hs Hi)). reflexivity.
Qed.

Lemma main_exit_zero_iff_witness :
  length [py "output_validator.py"] < 2 /\
  main two_files [py "output_validator.py"] = 1.
Proof.
  split; [cbn; lia|].
  apply (proj1 (proj2 (main_exit_zero_iff two_files [py "output_validator.py"]))). cbn; lia.
Defined.

(** ** The number of findings *)

(** X6. A run on a freshly constructed validator ends with at least 10
    findings in its buckets (6 for the sections, 2 for the invalid
    identifiers, 1 for the tables, 1 for the coverage) and at most 28 plus
    the number of URLs extracted from the text, the date check adding at
    most two for each of the nine records: [total_checks] is never zero when
    [_generate_report] divides by it. *)
Theorem run_total_checks (content : pystr) :
  exists report self',
    run_checks content __init__ = Ok (report, self') /\
    10 <= total_checks self' /\
    total_checks self' <= 28 + length (re_findall false url_re content).
Proof.
  exists (report_dict (emit __init__ (run_findings content))), (emit __init__ (run_findings content)).
  split; [apply (run_checks_returns content constructed_init)|].
  assert (Ht : total_checks (emit __init__ (run_findings content)) = fcount (run_findings content)).
  { unfold total_checks, fcount. cbn [errors warnings passed_checks emit __init__ app]. lia. }
  rewrite Ht, run_fcount.
  pose proof (proj1 (dates_fcount content (verified_pubs __init__))) as Hd.
  change (length (verified_pubs __init__)) with 9 in Hd. lia.
Qed.

(** ** The context window *)





(** ** Dates the findings name *)

Lemma occurs_slice (x s : pystr) (start stop : nat) :
  occurs x (slice s start stop) -> occurs x s.
Proof.
  unfold slice. intros (pre & post & H).
  exists (firstn start s ++ pre), (post ++ skipn (stop - start) (skipn start s)).
  rewrite <- (firstn_skipn start s) at 1.
  rewrite <- (firstn_skipn (stop - start) (skipn start s)) at 1.
  rewrite H, <- !app_assoc. reflexivity.
Qed.

Lemma pattern_finding_sound (content pub_id : pystr) (info : pub_info) (r : regex) :
  let f := pattern_finding content pub_id info r in
  (forall msg, In msg (f_passed f) ->
     msg = correct_date_msg pub_id (date info) /\ near_match content r (date info)) /\
  (forall msg, In msg (f_warnings f) ->
     exists found,
       msg = incorrect_date_msg pub_id (date info) found /\
       iso_date found /\ near_match content r found /\ found <> date info).
Proof.
  unfold pattern_finding, near_match.
  destruct (re_search true r content) as [m|]; [|split; intros msg []].
  cbv zeta. destruct (str_in (date info) _) eqn:E.
  - split; [|intros msg []]. intros msg [<- | []]. split; [reflexivity|].
    apply str_in_spec in E. apply dates_found_iso in E.
    exists m. split; [reflexivity | exact (proj2 E)].
  - destruct (re_findall false date_re (date_window content m)) as [|found rest] eqn:F;
      [split; intros msg []|].
    split; [intros msg []|]. intros msg [<- | []]. exists found.
    assert (Hin : In found (re_findall false date_re (date_window content m)))
      by (rewrite F; left; reflexivity).
    destruct (dates_found_iso _ _ Hin) as [Hiso Hocc].
    split; [reflexivity|]. split; [exact Hiso|].
    split; [exists m; split; [reflexivity | exact Hocc]|].
    intros ->. assert (Hs : str_in (date info) (date info :: rest) = true)
      by (apply str_in_spec; left; reflexivity).
    congruence.
Qed.

(** What stands near a mention stands in the text. *)
Lemma near_mention_occurs (content : pystr) (item : pystr * pub_info) (d : pystr) :
  near_mention content item d -> occurs d content.
Proof.
  intros (r1 & r2 & _ & [(m & _ & H) | (m & _ & H)]);
    unfold date_window in H; eapply occurs_slice; exact H.
Qed.

(** X8. For every record of the reference table and every text, the
    findings the date check emits for the record are sound in this sense: a
    Pass is emitted only when the canonical date stands in the text within
    200 characters of the first match of one of the record's patterns, and
    a Warning names, as the date found, a string of the form YYYY-MM-DD that
    stands there and is not the canonical date. *)
Theorem date_findings_sound (content : pystr) (self : NISTOutputValidator) :
  Forall (fun item =>
            exists f,
              check_pub_dates content item self = Ok (tt, emit self f) /\
              date_finding_sound content item f)
         (verified_pubs __init__).
Proof.
  - apply Forall_forall. intros item Hitem.
    pose proof (proj1 (Forall_forall _ _) verified_pubs_compile item Hitem) as Hc.
    exists (pub_findings content item).
    split; [apply emits_check_pub_dates; exact Hc|].
    unfold pub_findings, date_finding_sound, near_mention.
    destruct (pub_regexes (fst item)) as [[r1 r2]|] eqn:Er; [|congruence].
    destruct (pattern_finding_sound content (fst item) (snd item) r1) as [P1 W1].
    destruct (pattern_finding_sound content (fst item) (snd item) r2) as [P2 W2].
    split; intros msg Hmsg; cbn [fapp f_passed f_warnings] in Hmsg;
      apply in_app_or in Hmsg; destruct Hmsg as [Hmsg | Hmsg].
    + destruct (P1 msg Hmsg) as [-> Hn]. split; [reflexivity|]. exists r1, r2. auto.
    + destruct (P2 msg Hmsg) as [-> Hn]. split; [reflexivity|]. exists r1, r2. auto.
    + destruct (W1 msg Hmsg) as (found & -> & Hiso & Hn & Hne). exists found.
      repeat split; auto. exists r1, r2. auto.
    + destruct (W2 msg Hmsg) as (found & -> & Hiso & Hn & Hne). exists found.
      repeat split; auto. exists r1, r2. auto.
Qed.

(** ** The URLs that pass *)

Lemma forallb_same {A : Type} (f g : A -> bool) (l : list A) :
  (forall x, f x = g x) -> forallb f l = forallb g l.
Proof. intros H. induction l as [|x l IH]; simpl; [reflexivity|]. rewrite H, IH. reflexivity. Qed.

Lemma matches_literal_app (p : pystr) (r : regex) (m : pystr) :
  matches false (literal p ++ r) m <-> exists b, m = p ++ b /\ matches false r b.
Proof.
  revert m. induction p as [|c p IH]; intros m; cbn [literal map app matches].
  - split; [intros H; exists m; auto | intros (b & -> & H); exact H].
  - split.
    + intros (a & b & -> & Hf & Hl & Hb). apply IH in Hb. destruct Hb as (b' & -> & Hb').
      destruct a as [|x [|? ?]]; try discriminate Hl.
      cbn in Hf. rewrite andb_true_r in Hf. apply Ascii.eqb_eq in Hf. subst x.
      exists b'. split; [reflexivity | exact Hb'].
    + intros (b & -> & Hb). exists [c], (p ++ b). split; [reflexivity|].
      split; [cbn; rewrite Ascii.eqb_refl; reflexivity|]. split; [reflexivity|].
      apply IH. exists b. split; [reflexivity | exact Hb].
Qed.

Lemma matches_literal (p m : pystr) : matches false (literal p) m <-> m = p.
Proof.
  rewrite <- (app_nil_r (literal p)), matches_literal_app. cbn [matches]. split.
  - intros (b & -> & ->). apply app_nil_r.
  - intros ->. exists []. rewrite app_nil_r. split; reflexivity.
Qed.

Lemma correct_re_matches (m : pystr) :
  matches false correct_re m <->
  exists number segment,
    m = py "https://csrc.nist.gov/pubs/sp/" ++ number ++ "/"%char :: segment ++ py "/final" /\
    number <> [] /\ forallb is_digit number = true /\
    segment <> [] /\ forallb segment_char segment = true.
Proof.
  unfold correct_re. rewrite matches_literal_app.
  assert (Hseg : forall l, forallb (cset_match false (CNeg [ALit "/"; ASpace])) l =
                           forallb segment_char l).
  { intros l. apply forallb_same. intros c. unfold segment_char. cbn.
    rewrite orb_false_r. reflexivity. }
  split.
  - intros (b & -> & Hb). cbn [app matches] in Hb.
    destruct Hb as (number & b1 & -> & Hn & Ln & slash & b2 & -> & Hsl & Lsl &
                    segment & b3 & -> & Hsg & Lsg & Hfin).
    apply matches_literal in Hfin. subst b3.
    destruct slash as [|x [|? ?]]; try discriminate Lsl.
    cbn in Hsl. rewrite andb_true_r in Hsl. apply Ascii.eqb_eq in Hsl. subst x.
    exists number, segment. rewrite Hseg in Hsg. cbn in Ln, Lsg.
    split; [reflexivity|]. split; [intros ->; cbn in Ln; lia|]. split; [exact Hn|].
    split; [intros ->; cbn in Lsg; lia | exact Hsg].
  - intros (number & segment & -> & Hn0 & Hn & Hs0 & Hs).
    exists (number ++ "/"%char :: segment ++ py "/final"). split; [reflexivity|].
    cbn [app matches]. exists number, ("/"%char :: segment ++ py "/final").
    split; [reflexivity|]. split; [exact Hn|].
    split; [cbn; destruct number; [congruence | cbn; lia]|].
    exists ["/"%char], (segment ++ py "/final"). split; [reflexivity|].
    split; [reflexivity|]. split; [reflexivity|].
    exists segment, (py "/final"). split; [reflexivity|].
    rewrite Hseg. split; [exact Hs|].
    split; [cbn; destruct segment; [congruence | cbn; lia]|].
    apply matches_literal. reflexivity.
Qed.

Lemma url_passes_iff (url : pystr) :
  re_match false correct_re url <> None <-> url_well_formed url.
Proof.
  unfold re_match, url_well_formed. split.
  - intros H. destruct (re_match_here false correct_re url) as [n|] eqn:E; [|congruence].
    apply re_match_here_sound in E. destruct E as (m & t & -> & _ & Hm).
    apply correct_re_matches in Hm.
    destruct Hm as (number & segment & -> & Hn0 & Hn & Hs0 & Hs).
    exists number, segment, t. rewrite <- !app_assoc. cbn [app]. rewrite <- !app_assoc.
    auto.
  - intros (number & segment & rest & -> & Hn0 & Hn & Hs0 & Hs).
    replace (py "https://csrc.nist.gov/pubs/sp/" ++ number ++ "/"%char :: segment ++
             py "/final" ++ rest)
      with ((py "https://csrc.nist.gov/pubs/sp/" ++ number ++ "/"%char :: segment ++
             py "/final") ++ rest)
      by (rewrite <- !app_assoc; cbn [app]; rewrite <- !app_assoc; reflexivity).
    apply re_match_here_complete. apply correct_re_matches.
    exists number, segment. auto.
Qed.

Lemma urls_passed_in (urls : list pystr) (url : pystr) :
  In (correct_url_msg url) (f_passed (fconcat (map url_finding urls))) <->
  In url urls /\ url_well_formed url.
Proof.
  rewrite <- url_passes_iff. induction urls as [|u urls IH]; cbn [map fconcat fold_right].
  - cbn. tauto.
  - rewrite f_passed_fapp, in_app_iff. unfold fconcat in IH. rewrite IH.
    unfold url_finding at 1. cbn [In].
    destruct (re_match false correct_re u) as [n|] eqn:E; cbn [f_passed one_pass one_warning In].
    + split.
      * intros [[H | []] | H]; [|tauto].
        apply app_inv_head in H. subst u. split; [left; reflexivity | congruence].
      * intros [[-> | H] Hm]; [left; left; reflexivity | tauto].
    + split.
      * intros [[] | H]. tauto.
      * intros [[-> | H] Hm]; [congruence | tauto].
Qed.

Lemma urls_warned_in (urls : list pystr) (url : pystr) :
  In (check_url_msg url) (f_warnings (fconcat (map url_finding urls))) <->
  In url urls /\ ~ url_well_formed url.
Proof.
  rewrite <- url_passes_iff. induction urls as [|u urls IH]; cbn [map fconcat fold_right].
  - cbn. tauto.
  - rewrite f_warnings_fapp, in_app_iff. unfold fconcat in IH. rewrite IH.
    unfold url_finding at 1. cbn [In].
    destruct (re_match false correct_re u) as [n|] eqn:E; cbn [f_warnings one_pass one_warning In].
    + split.
      * intros [[] | H]. tauto.
      * intros [[-> | H] Hm]; [exfalso; apply Hm; congruence | tauto].
    + split.
      * intros [[H | []] | H]; [|tauto].
        apply app_inv_head in H. subst u. split; [left; reflexivity | intros Hm; congruence].
      * intros [[-> | H] Hm]; [left; left; reflexivity | tauto].
Qed.

(** X9. The URL check gives a Pass to exactly those extracted URLs that
    consist of [https://csrc.nist.gov/pubs/sp/], a non-empty run of digits,
    a slash, one non-empty segment without slash or whitespace, [/final],
    and then anything at all; every other extracted URL gets a Warning. What
    follows [/final] is not looked at. *)
Theorem urls_pass_iff_well_formed (content : pystr) (self : NISTOutputValidator) :
  exists f,
    _check_urls content self = Ok (tt, emit self f) /\
    (forall url, In (correct_url_msg url) (f_passed f) <->
                 In url (re_findall false url_re content) /\ url_well_formed url) /\
    (forall url, In (check_url_msg url) (f_warnings f) <->
                 In url (re_findall false url_re content) /\ ~ url_well_formed url).
Proof.
  exists (urls_findings content). split; [apply emits_check_urls|].
  split; [intros url; apply urls_passed_in | intros url; apply urls_warned_in].
Qed.

(** ** The URLs that are extracted *)

(** A string [re.findall] returns stands in the text at a place where the
    pattern matches with that string's length. *)
Lemma re_findall_aux_at (ic : bool) (r : regex) (s : pystr) (skip : nat) (x : pystr) :
  In x (re_findall_aux ic r s skip) ->
  exists pre post, s = pre ++ x ++ post /\ re_match_here ic r (x ++ post) = Some (length x).
Proof.
  revert skip. induction s as [|c s IH]; intros skip.
  - destruct skip as [|skip]; simpl; [|contradiction].
    destruct (re_match_here ic r []) as [n|] eqn:E; simpl; [|contradiction].
    intros [<- | []]. rewrite firstn_nil. exists [], []. split; [reflexivity|].
    pose proof (re_match_here_length _ _ _ E) as Hn. simpl in Hn.
    replace n with 0 in E by lia. exact E.
  - assert (Hlater : forall k, In x (re_findall_aux ic r s k) ->
              exists pre post, c :: s = pre ++ x ++ post /\
                               re_match_here ic r (x ++ post) = Some (length x)).
    { intros k Hk. destruct (IH _ Hk) as (pre & post & -> & Hm).
      exists (c :: pre), post. split; [reflexivity | exact Hm]. }
    destruct skip as [|skip]; cbn [re_findall_aux]; [|apply Hlater].
    destruct (re_match_here ic r (c :: s)) as [n|] eqn:E; [|apply Hlater].
    intros [<- | Hx]; [|exact (Hlater _ Hx)].
    pose proof (re_match_here_length _ _ _ E) as Hn.
    exists [], (skipn n (c :: s)). cbn [app]. rewrite firstn_skipn.
    split; [reflexivity|]. rewrite E, length_firstn. f_equal. lia.
Qed.

Lemma re_match_here_literal (p : pystr) (r : regex) (s : pystr) :
  re_match_here false (literal p ++ r) s =
  if starts_with p s
  then option_map (Nat.add (length p)) (re_match_here false r (skipn (length p) s))
  else None.
Proof.
  revert s. induction p as [|c p IH]; intros s; cbn [literal map app re_match_here].
  - cbn. destruct (re_match_here false r s); reflexivity.
  - destruct s as [|x s]; [reflexivity|]. cbn [re_rep starts_with cset_match atom_match lit].
    change (map lit p ++ r) with (literal p ++ r). rewrite (Ascii.eqb_sym c x).
    destruct (Ascii.eqb x c); cbn [andb]; [|reflexivity].
    rewrite IH. destruct (starts_with p s); [|reflexivity]. cbn [length skipn].
    destruct (re_match_here false r (skipn (length p) s)); reflexivity.
Qed.

(** The greedy star at the end of a pattern takes every character it can. *)
Lemma re_star_last (f : ascii -> bool) (s : pystr) :
  exists n,
    re_star f (fun _ => Some 0) s = Some n /\ n <= length s /\
    forallb f (firstn n s) = true /\
    (skipn n s = [] \/ exists c t, skipn n s = c :: t /\ f c = false).
Proof.
  induction s as [|c s (n & Hn & Hl & Hf & Hrest)]; cbn [re_star].
  - exists 0. repeat split; auto.
  - destruct (f c) eqn:Ec.
    + rewrite Hn. exists (S n). cbn [length firstn skipn forallb]. rewrite Ec, Hf.
      repeat split; auto. lia.
    + exists 0. cbn [firstn skipn forallb length]. repeat split; try lia.
      right. exists c, s. split; [reflexivity | exact Ec].
Qed.

Lemma url_re_match (s : pystr) (n : nat) :
  re_match_here false url_re s = Some n ->
  url_shaped (firstn n s) /\ n <= length s /\
  (skipn n s = [] \/ exists c t, skipn n s = c :: t /\ url_char c = false).
Proof.
  unfold url_re. rewrite re_match_here_literal.
  destruct (starts_with (py "https://csrc.nist.gov") s) eqn:Hp; [|discriminate].
  apply starts_with_spec in Hp. destruct Hp as (t & ->).
  rewrite skipn_app, skipn_all, Nat.sub_diag. cbn [app skipn re_match_here].
  destruct t as [|c t]; [discriminate|]. cbn [re_rep].
  assert (Hchar : forall x, cset_match false (CNeg [ASpace; ALit ")"]) x = url_char x).
  { intros x. unfold url_char. cbn. rewrite orb_false_r. reflexivity. }
  rewrite Hchar. destruct (url_char c) eqn:Ec; [|discriminate].
  destruct (re_star_last (cset_match false (CNeg [ASpace; ALit ")"])) t)
    as (k & Hk & Hl & Hf & Hrest).
  change (re_match_here false []) with (fun _ : pystr => Some 0).
  rewrite Hk. cbn [option_map].
  set (host := py "https://csrc.nist.gov") in *.
  intros Hn. assert (Hn' : n = length host + S k) by congruence. subst n. clear Hn.
  rewrite firstn_app, firstn_all2 by lia.
  replace (length host + S k - length host) with (S k) by lia. cbn [firstn].
  rewrite skipn_app, skipn_all2 by lia.
  replace (length host + S k - length host) with (S k) by lia. cbn [skipn app].
  rewrite length_app. cbn [length]. split; [|split; [lia|]].
  - exists (c :: firstn k t). split; [reflexivity|]. split; [discriminate|].
    cbn [forallb]. rewrite Ec. rewrite (forallb_same _ _ _ Hchar) in Hf. exact Hf.
  - destruct Hrest as [Hrest | (x & u & Hrest & Hx)]; [left; exact Hrest|].
    right. exists x, u. split; [exact Hrest|]. rewrite <- Hchar. exact Hx.
Qed.

Lemma extracted_url_extent (content url : pystr) :
  In url (re_findall false url_re content) -> url_shaped url /\ url_extent content url.
Proof.
  intros H. apply re_findall_aux_at in H. destruct H as (pre & post & Hc & Hm).
  apply url_re_match in Hm. rewrite firstn_app, Nat.sub_diag, firstn_all in Hm.
  rewrite skipn_app, skipn_all, Nat.sub_diag in Hm. cbn [firstn skipn app] in Hm.
  rewrite app_nil_r in Hm. destruct Hm as (Hshape & _ & Hrest).
  split; [exact Hshape|]. exists pre, post. split; [exact Hc | exact Hrest].
Qed.

(** X10. Every URL the check looks at is a piece of the text that starts with
    [https://csrc.nist.gov], has at least one more character, holds no
    whitespace and no closing parenthesis, and runs up to the end of the
    text or to the next whitespace character or closing parenthesis: a
    period or comma written after a URL is taken as part of it. The check
    emits one finding for each of them. *)
Theorem extracted_urls_extent (content : pystr) (self : NISTOutputValidator) :
  exists f,
    _check_urls content self = Ok (tt, emit self f) /\
    fcount f = length (re_findall false url_re content) /\
    Forall (fun url => url_shaped url /\ url_extent content url)
           (re_findall false url_re content).
Proof.
  exists (urls_findings content). split; [apply emits_check_urls|].
  split; [apply urls_fcount|]. apply Forall_forall. intros url. apply extracted_url_extent.
Qed.

(** ** A key without a hyphen *)

Lemma split_no_sep (sep : ascii) (s : pystr) : ~ In sep s -> split sep s = [s].
Proof.
  induction s as [|c s IH]; intros H; cbn [split]; [reflexivity|].
  destruct (Ascii.eqb c sep) eqn:E.
  - apply Ascii.eqb_eq in E. subst c. exfalso. apply H. left. reflexivity.
  - rewrite IH; [reflexivity|]. intros Hin. apply H. right. exact Hin.
Qed.

(** X11. The date check takes the part of each table key after its first
    hyphen. When the first key of the table has no hyphen there is no such
    part: the check raises [IndexError] on every text, and [validate_file]
    ends the process with code 1 although the file was read. *)
Theorem key_without_hyphen_raises (fs : filesystem) (path content pub_id : pystr)
  (info : pub_info) (rest : list (pystr * pub_info)) (self : NISTOutputValidator)
  (Hkey : ~ In "-"%char pub_id)
  (Htable : verified_pubs self = (pub_id, info) :: rest)
  (Hread : fs path = Ok content) :
  pub_patterns pub_id = Raise IndexError /\
  _check_publication_dates content self = Raise IndexError /\
  validate_file fs path self = SysExit 1.
Proof.
  assert (Hp : pub_patterns pub_id = Raise IndexError).
  { unfold pub_patterns. rewrite (@split_no_sep _ _ Hkey). reflexivity. }
  assert (Hd : forall f, _check_publication_dates content (emit self f) = Raise IndexError).
  { intros f. unfold _check_publication_dates. rewrite bind_get_self.
    cbn [verified_pubs emit]. rewrite Htable. cbn [for_each check_pub_dates].
    unfold bind at 1. unfold bind at 1. rewrite Hp. reflexivity. }
  split; [exact Hp|]. split; [rewrite <- (emit_nil self); apply Hd|].
  rewrite validate_file_reads, Hread. unfold run_checks.
  unfold bind at 1. rewrite emits_check_required_sections.
  unfold bind at 1. rewrite Hd. reflexivity.
Qed.

Lemma key_without_hyphen_raises_witness :
  ~ In "-"%char (py "csf2") /\
  verified_pubs validator_with_plain_key =
    (py "csf2", pub "2024-02-26" "Cybersecurity Framework 2.0") :: [] /\
  two_files (py "second.md") = Ok clean_report /\
  (pub_patterns (py "csf2") = Raise IndexError /\
   _check_publication_dates clean_report validator_with_plain_key = Raise IndexError /\
   validate_file two_files (py "second.md") validator_with_plain_key = SysExit 1).
Proof.
  assert (Hkey : ~ In "-"%char (py "csf2")).
  { cbn. intros [H | [H | [H | [H | []]]]]; discriminate H. }
  split; [exact Hkey|]. split; [reflexivity|]. split; [reflexivity|].
  exact (@key_without_hyphen_raises two_files (py "second.md") clean_report (py "csf2")
           (pub "2024-02-26" "Cybersecurity Framework 2.0") [] validator_with_plain_key
           Hkey eq_refl eq_refl).
Defined.

(** ** A run without warnings *)

Lemma pattern_warnings_nil (content : pystr) (item : pystr * pub_info) (r : regex) :
  f_warnings (pattern_finding content (fst item) (snd item) r) = [] <->
  ~ date_mismatch content item r.
Proof.
  unfold pattern_finding, date_mismatch.
  destruct (re_search true r content) as [m|].
  - cbv zeta. destruct (str_in (date (snd item)) _) eqn:E.
    + split; [|reflexivity]. intros _ (m' & found & rest & [= <-] & Hf & Hno).
      apply str_in_spec in E. rewrite Hf in E. contradiction.
    + destruct (re_findall false date_re (date_window content m)) as [|found rest] eqn:F.
      * split; [|reflexivity]. intros _ (m' & found & rest & [= <-] & Hf & _).
        rewrite F in Hf. discriminate Hf.
      * split; [discriminate|]. intros H. exfalso. apply H.
        exists m, found, rest. split; [reflexivity|]. split; [exact F|].
        intros Hin. apply str_in_spec in Hin. congruence.
  - split; [|reflexivity]. intros _ (m & found & rest & Hs & _). discriminate Hs.
Qed.

Lemma dates_warnings_nil (content : pystr) (pubs : list (pystr * pub_info)) :
  Forall (fun item => pub_regexes (fst item) <> None) pubs ->
  f_warnings (dates_findings content pubs) = [] <-> Forall (dates_agree content) pubs.
Proof.
  unfold dates_findings. induction pubs as [|item pubs IH]; intros Hc.
  - split; [constructor | reflexivity].
  - inversion Hc as [|? ? Hitem Hrest]; subst. specialize (IH Hrest).
    cbn [map fconcat fold_right]. rewrite f_warnings_fapp. unfold fconcat in IH.
    unfold pub_findings at 1. unfold dates_agree at 1.
    destruct (pub_regexes (fst item)) as [[r1 r2]|] eqn:Er; [|congruence].
    rewrite f_warnings_fapp. split.
    + intros H. apply app_eq_nil in H. destruct H as [H12 H].
      apply app_eq_nil in H12. destruct H12 as [H1 H2].
      constructor; [|apply IH; exact H].
      exists r1, r2. split; [exact Er|].
      split; apply pattern_warnings_nil; assumption.
    + intros H. inversion H as [|? ? (q1 & q2 & Hq & Hn1 & Hn2) Hall]; subst.
      rewrite Hq in Er. injection Er as <- <-.
      rewrite (proj2 (pattern_warnings_nil content item q1) Hn1),
        (proj2 (pattern_warnings_nil content item q2) Hn2), (proj2 IH Hall).
      reflexivity.
Qed.

Lemma urls_warnings_nil (content : pystr) :
  f_warnings (urls_findings content) = [] <->
  Forall url_well_formed (re_findall false url_re content).
Proof.
  unfold urls_findings. induction (re_findall false url_re content) as [|u urls IH].
  - split; [constructor | reflexivity].
  - cbn [map fconcat fold_right]. rewrite f_warnings_fapp. unfold fconcat in IH.
    pose proof (url_passes_iff u) as Hu. unfold url_finding at 1.
    destruct (re_match false correct_re u) as [n|]; cbn [f_warnings one_pass one_warning app].
    + rewrite IH. split.
      * intros H. constructor; [apply Hu; discriminate | exact H].
      * intros H. inversion H; assumption.
    + split; [discriminate|]. intros H. inversion H as [|? ? Hw _]; subst.
      apply Hu in Hw. congruence.
Qed.

Lemma tables_warnings_nil (content : pystr) :
  f_warnings (tables_finding content) = [] <-> table_rows content <= 5.
Proof.
  unfold tables_finding. rewrite findall_table_re. cbv zeta.
  destruct (5 <? table_rows content) eqn:E.
  - apply Nat.ltb_lt in E. split; [discriminate | lia].
  - apply Nat.ltb_ge in E. split; [intros _; exact E | reflexivity].
Qed.

Lemma coverage_warnings_nil (content : pystr) :
  f_warnings (coverage_finding content) = [] <-> Forall (fun p => occurs p content) key_pubs.
Proof.
  unfold coverage_finding.
  destruct (filter (fun p => negb (contains p content)) key_pubs) as [|m ms] eqn:E.
  - split; [|reflexivity]. intros _. apply Forall_forall. intros p Hp. apply contains_spec.
    destruct (contains p content) eqn:Ec; [reflexivity|].
    assert (Hin : In p (filter (fun p => negb (contains p content)) key_pubs))
      by (apply filter_In; split; [exact Hp | rewrite Ec; reflexivity]).
    rewrite E in Hin. contradiction.
  - split; [discriminate|]. intros H.
    assert (Hin : In m (filter (fun p => negb (contains p content)) key_pubs))
      by (rewrite E; left; reflexivity).
    apply filter_In in Hin. destruct Hin as [Hk Hneg].
    apply negb_true_iff, contains_false in Hneg.
    exfalso. apply Hneg. exact (proj1 (Forall_forall _ _) H m Hk).
Qed.

Lemma sections_invalid_warnings (content : pystr) (l : list pystr) :
  f_warnings (fconcat (map (invalid_finding content) l)) = [].
Proof.
  induction l as [|p l IH]; [reflexivity|]. cbn [map fconcat fold_right].
  rewrite f_warnings_fapp. unfold fconcat in IH. rewrite IH. unfold invalid_finding.
  destruct (contains p content); reflexivity.
Qed.

Lemma run_warnings_nil (content : pystr) :
  f_warnings (run_findings content) = [] <->
  Forall (dates_agree content) (verified_pubs __init__) /\
  Forall url_well_formed (re_findall false url_re content) /\
  table_rows content <= 5 /\
  Forall (fun p => occurs p content) key_pubs.
Proof.
  unfold run_findings. cbn [fconcat fold_right]. rewrite !f_warnings_fapp.
  rewrite (proj2 (sections_fcount content required_sections)), sections_invalid_warnings.
  cbn [f_warnings no_findings app]. rewrite app_nil_r.
  rewrite <- (dates_warnings_nil content verified_pubs_compile), <- urls_warnings_nil,
    <- tables_warnings_nil, <- coverage_warnings_nil.
  split.
  - intros H. apply app_eq_nil in H. destruct H as [H1 H].
    apply app_eq_nil in H. destruct H as [H2 H].
    apply app_eq_nil in H. destruct H as [H3 H4]. auto.
  - intros (-> & -> & -> & ->). reflexivity.
Qed.

(** X12. A run on a freshly constructed validator returns the status
    "passed" exactly when the text has every required section heading and
    neither invalid identifier, no pattern of a table record matches at a
    place whose dates leave out the canonical date, every extracted URL is
    well formed, at most 5 lines have three or more pipe characters, and all
    four key publications occur. *)
Theorem run_passes_iff (content : pystr) :
  exists report self' status,
    run_checks content __init__ = Ok (report, self') /\
    getitem report (py "status") = Ok (VStr status) /\
    (status = py "passed" <->
     Forall (fun h => occurs h content) required_sections /\
     Forall (fun p => ~ occurs p content) [py "800-204C"; py "800-210"] /\
     Forall (dates_agree content) (verified_pubs __init__) /\
     Forall url_well_formed (re_findall false url_re content) /\
     table_rows content <= 5 /\
     Forall (fun p => occurs p content) key_pubs).
Proof.
  set (self' := emit __init__ (run_findings content)).
  exists (report_dict self'), self'.
  destruct (report_dict_status self') as (status & Hs & Hcases). exists status.
  split; [apply (run_checks_returns content constructed_init)|]. split; [exact Hs|].
  pose proof (run_errors_nil content) as He.
  pose proof (run_warnings_nil content) as Hw.
  change (f_errors (run_findings content)) with (errors self') in He.
  change (f_warnings (run_findings content)) with (warnings self') in Hw.
  destruct Hcases as [(Herr & ->) | [(Herr & Hwarn & ->) | (Herr & Hwarn & ->)]].
  - split; [intros H; vm_compute in H; discriminate H|].
    intros (H1 & H2 & _). exfalso. apply Herr. apply He. split; assumption.
  - split; [intros H; vm_compute in H; discriminate H|].
    intros (_ & _ & H). exfalso. apply Hwarn. apply Hw. exact H.
  - split; [intros _ | reflexivity].
    destruct (proj1 He Herr) as [H1 H2]. split; [exact H1|]. split; [exact H2|].
    apply Hw. exact Hwarn.
Qed.

(** ** Records whose patterns overlap *)

Lemma matches_app (ic : bool) (r1 r2 : regex) (m : pystr) :
  matches ic (r1 ++ r2) m <->
  exists a b, m = a ++ b /\ matches ic r1 a /\ matches ic r2 b.
Proof.
  revert m. induction r1 as [|[cs q] r1 IH]; intros m; cbn [app matches].
  - split.
    + intros H. exists [], m. auto.
    + intros (a & b & -> & -> & H). exact H.
  - split.
    + intros (a & b & -> & Hf & Hq & Hb). apply IH in Hb.
      destruct Hb as (a' & b' & -> & Ha' & Hb').
      exists (a ++ a'), b'. rewrite app_assoc. split; [reflexivity|]. split; [|exact Hb'].
      exists a, a'. auto.
    + intros (a & b & -> & (a1 & a2 & -> & Hf & Hq & Ha2) & Hb).
      exists a1, (a2 ++ b). rewrite app_assoc. split; [reflexivity|].
      split; [exact Hf|]. split; [exact Hq|]. apply IH. exists a2, b. auto.
Qed.

(** A pattern that matches somewhere is found by [re.search], at that
    place or before it. *)
Lemma re_search_before (ic : bool) (r : regex) (pre m post : pystr) :
  matches ic r m ->
  exists i j, re_search ic r (pre ++ m ++ post) = Some (i, j) /\ i <= length pre.
Proof.
  intros Hm. unfold re_search.
  pose proof (re_search_from_spec ic r (pre ++ m ++ post) 0) as S.
  assert (Hat : re_match_here ic r (skipn (length pre) (pre ++ m ++ post)) <> None).
  { rewrite skipn_app, skipn_all, Nat.sub_diag. cbn [skipn app].
    apply re_match_here_complete. exact Hm. }
  destruct (re_search_from ic r (pre ++ m ++ post) 0) as [[i j]|].
  - exists i, j. split; [reflexivity|]. rewrite Nat.sub_0_r in S.
    destruct S as (_ & _ & _ & _ & Hleft).
    destruct (Nat.le_gt_cases i (length pre)) as [H | H]; [exact H|].
    exfalso. apply Hat. apply Hleft. exact H.
  - exfalso. apply Hat. apply S. rewrite length_app. lia.
Qed.

(** X13. The date check looks the record 800-218 up by a pattern that is a
    prefix of the pattern of 800-218A, and the record csf-2.0 by a pattern
    that the invalid identifier 800-210 matches. So a text in which the
    pattern of 800-218A matches is always matched for 800-218 as well, at
    the same place or earlier, and a text that contains 800-210 is always
    matched for csf-2.0. *)
Theorem overlapping_record_patterns (content : pystr) :
  pub_regexes (py "800-218A") = Some (re_800_218A, literal (py "SP 800 218A")) /\
  pub_regexes (py "800-218") = Some (re_800_218, literal (py "SP 800 218")) /\
  pub_regexes (py "csf-2.0") =
    Some (csf_re, literal (py "SP csf 2") ++ [(COne AAny, QOne); lit "0"]) /\
  (forall i j,
     re_search true re_800_218A content = Some (i, j) ->
     exists i' j', re_search true re_800_218 content = Some (i', j') /\ i' <= i) /\
  (occurs (py "800-210") content ->
   exists i j, re_search true csf_re content = Some (i, j)).
Proof.
  do 3 (split; [vm_compute; reflexivity|]). split.
  - intros i j Hs. apply re_search_some in Hs.
    destruct Hs as (pre & m & post & -> & <- & _ & Hm & _).
    change re_800_218A with (re_800_218 ++ [lit "A"]) in Hm.
    apply matches_app in Hm. destruct Hm as (a & b & -> & Ha & _).
    rewrite <- app_assoc. apply re_search_before. exact Ha.
  - intros (pre & post & ->).
    assert (Hm : matches true csf_re (py "800-210")).
    { assert (E : re_match_here true csf_re (py "800-210") = Some 7) by (vm_compute; reflexivity).
      apply re_match_here_sound in E. destruct E as (m & t & Hmt & Hl & Hm).
      assert (Ht : t = []).
      { apply (f_equal (@length ascii)) in Hmt. rewrite length_app, Hl in Hmt.
        cbn in Hmt. destruct t; [reflexivity | cbn in Hmt; lia]. }
      subst t. rewrite app_nil_r in Hmt. rewrite Hmt. exact Hm. }
    destruct (@re_search_before true csf_re pre (py "800-210") post Hm) as (i & j & Hs & _).
    exists i, j. exact Hs.
Qed.

Lemma overlapping_record_patterns_witness :
  re_search true re_800_218A text_no_date = Some (7, 15) /\
  occurs (py "800-210") text_800_210 /\
  (exists i' j', re_search true re_800_218 text_no_date = Some (i', j') /\ i' <= 7) /\
  (exists i j, re_search true csf_re text_800_210 = Some (i, j)).
Proof.
  assert (H1 : re_search true re_800_218A text_no_date = Some (7, 15)) by (vm_compute; reflexivity).
  assert (H2 : occurs (py "800-210") text_800_210)
    by (apply contains_spec; vm_compute; reflexivity).
  split; [exact H1|]. split; [exact H2|]. split.
  - exact (proj1 (proj2 (proj2 (proj2 (overlapping_record_patterns text_no_date)))) 7 15 H1).
  - exact (proj2 (proj2 (proj2 (proj2 (overlapping_record_patterns text_800_210)))) H2).
Defined.

(** ** Totality of the checks *)

Lemma sections_findings_reported (content : pystr) :
  Forall (section_reported content (sections_findings content required_sections))
         required_sections.
Proof.
  apply Forall_forall. intros h Hh. unfold section_reported.
  rewrite sections_passed_count, sections_errors_count.
  assert (Hc : count_msg h required_sections = 1).
  { simpl in Hh. repeat (destruct Hh as [<- | Hh]; [vm_compute; reflexivity|]). contradiction. }
  rewrite Hc. destruct (contains h content) eqn:E.
  - left. split; [apply contains_spec; exact E | split; reflexivity].
  - right. split; [apply contains_false; exact E | split; reflexivity].
Qed.

Lemma invalid_findings_reported (content : pystr) :
  Forall (invalid_reported content
            (fconcat (map (invalid_finding content) [py "800-204C"; py "800-210"])))
         [py "800-204C"; py "800-210"].
Proof.
  cbn [map fconcat fold_right]. unfold invalid_finding, invalid_reported.
  destruct (contains (py "800-204C") content) eqn:E1;
    destruct (contains (py "800-210") content) eqn:E2;
    (apply Forall_cons; [|apply Forall_cons; [|apply Forall_nil]]);
    solve [ left; split; [apply contains_spec; assumption | split; vm_compute; reflexivity]
          | right; split; [apply contains_false; assumption | split; vm_compute; reflexivity] ].
Qed.

Lemma tables_finding_cases (content : pystr) :
  (5 < table_rows content /\
   tables_finding content = one_warning (multiple_tables_msg (table_rows content))) \/
  (table_rows content <= 5 /\ tables_finding content = one_pass single_table_msg).
Proof.
  unfold tables_finding. rewrite findall_table_re. cbv zeta.
  destruct (5 <? table_rows content) eqn:E.
  - apply Nat.ltb_lt in E. left. split; [exact E | reflexivity].
  - apply Nat.ltb_ge in E. right. split; [exact E | reflexivity].
Qed.

Lemma coverage_finding_cases (content : pystr) :
  (Forall (fun p => occurs p content) key_pubs /\
   coverage_finding content = one_pass all_key_pubs_msg) \/
  (exists missing,
     missing <> [] /\ missing_key_pubs content missing /\
     coverage_finding content = one_warning (missing_pubs_msg missing)).
Proof.
  pose proof (coverage_missing content) as Hm.
  pose proof (coverage_warnings_nil content) as Hw.
  unfold coverage_finding in *.
  destruct (filter (fun p => negb (contains p content)) key_pubs) as [|m ms].
  - left. split; [apply Hw; reflexivity | reflexivity].
  - right. exists (m :: ms). split; [discriminate|]. split; [exact Hm | reflexivity].
Qed.

(** C9. On every report text, and whatever the buckets hold, each of the six
    checks of a constructed validator returns normally (no exception of the
    string, list and pattern operations it uses is raised), all it does to
    the validator is to append findings to the buckets, and what it finds
    wrong is among them, as an Error or a Warning: an Error for each required
    heading that does not occur and for each invalid identifier that does, a
    Warning for a record whose nearby dates leave out its canonical date, for
    each extracted URL that is not well formed, for more than five table
    rows, and for key publications that do not occur. *)
Theorem checks_never_raise (content : pystr) (self : NISTOutputValidator)
  (Hself : constructed self) :
  (exists f,
     _check_required_sections content self = Ok (tt, emit self f) /\
     fcount f = 6 /\ f_warnings f = [] /\
     Forall (section_reported content f) required_sections) /\
  (exists f,
     _check_publication_dates content self = Ok (tt, emit self f) /\
     f = dates_findings content (verified_pubs __init__) /\
     fcount f <= 18 /\ f_errors f = [] /\
     (f_warnings f = [] <-> Forall (dates_agree content) (verified_pubs __init__))) /\
  (exists f,
     _check_invalid_publications content self = Ok (tt, emit self f) /\
     fcount f = 2 /\ f_warnings f = [] /\
     Forall (invalid_reported content f) [py "800-204C"; py "800-210"]) /\
  (exists f,
     _check_urls content self = Ok (tt, emit self f) /\
     fcount f = length (re_findall false url_re content) /\ f_errors f = [] /\
     (forall url, In (check_url_msg url) (f_warnings f) <->
                  In url (re_findall false url_re content) /\ ~ url_well_formed url) /\
     (forall url, In (correct_url_msg url) (f_passed f) <->
                  In url (re_findall false url_re content) /\ url_well_formed url)) /\
  (exists f,
     _check_duplicate_tables content self = Ok (tt, emit self f) /\
     ((5 < table_rows content /\
       f = one_warning (multiple_tables_msg (table_rows content))) \/
      (table_rows content <= 5 /\ f = one_pass single_table_msg))) /\
  (exists f,
     _check_publication_coverage content self = Ok (tt, emit self f) /\
     ((Forall (fun p => occurs p content) key_pubs /\ f = one_pass all_key_pubs_msg) \/
      (exists missing,
         missing <> [] /\ missing_key_pubs content missing /\
         f = one_warning (missing_pubs_msg missing)))).
Proof.
  destruct Hself as [Hv Hi].
  split; [|split; [|split; [|split; [|split]]]].
  - exists (sections_findings content required_sections).
    split; [apply emits_check_required_sections|].
    destruct (sections_fcount content required_sections) as [Hn Hw].
    split; [exact Hn|]. split; [exact Hw | apply sections_findings_reported].
  - exists (dates_findings content (verified_pubs __init__)).
    split; [apply emits_check_publication_dates; exact Hv|]. split; [reflexivity|].
    destruct (dates_fcount content (verified_pubs __init__)) as [Hn He].
    split; [exact Hn|]. split; [exact He|].
    apply dates_warnings_nil. exact verified_pubs_compile.
  - exists (fconcat (map (invalid_finding content) [py "800-204C"; py "800-210"])).
    split.
    + pose proof (emits_check_invalid_publications content self) as H.
      unfold emits in H. rewrite Hi in H. exact H.
    + split; [apply invalid_fcount|].
      split; [apply sections_invalid_warnings | apply invalid_findings_reported].
  - exists (urls_findings content). split; [apply emits_check_urls|].
    destruct (urls_fcount content) as [Hn He]. split; [exact Hn|]. split; [exact He|].
    split; intros url; [apply urls_warned_in | apply urls_passed_in].
  - exists (tables_finding content).
    split; [apply emits_check_duplicate_tables | apply tables_finding_cases].
  - exists (coverage_finding content).
    split; [apply emits_check_publication_coverage | apply coverage_finding_cases].
Qed.

Lemma checks_never_raise_witness :
  constructed __init__ /\
  ((exists f,
       _check_required_sections text_no_date __init__ = Ok (tt, emit __init__ f) /\
       fcount f = 6 /\ f_warnings f = [] /\
       Forall (section_reported text_no_date f) required_sections) /\
    (exists f,
       _check_publication_dates text_no_date __init__ = Ok (tt, emit __init__ f) /\
       f = dates_findings text_no_date (verified_pubs __init__) /\
       fcount f <= 18 /\ f_errors f = [] /\
       (f_warnings f = [] <-> Forall (dates_agree text_no_date) (verified_pubs __init__))) /\
    (exists f,
       _check_invalid_publications text_no_date __init__ = Ok (tt, emit __init__ f) /\
       fcount f = 2 /\ f_warnings f = [] /\
       Forall (invalid_reported text_no_date f) [py "800-204C"; py "800-210"]) /\
    (exists f,
       _check_urls text_no_date __init__ = Ok (tt, emit __init__ f) /\
       fcount f = length (re_findall false url_re text_no_date) /\ f_errors f = [] /\
       (forall url, In (check_url_msg url) (f_warnings f) <->
                    In url (re_findall false url_re text_no_date) /\ ~ url_well_formed url) /\
       (forall url, In (correct_url_msg url) (f_passed f) <->
                    In url (re_findall false url_re text_no_date) /\ url_well_formed url)) /\
    (exists f,
       _check_duplicate_tables text_no_date __init__ = Ok (tt, emit __init__ f) /\
       ((5 < table_rows text_no_date /\
         f = one_warning (multiple_tables_msg (table_rows text_no_date))) \/
        (table_rows text_no_date <= 5 /\ f = one_pass single_table_msg))) /\
    (exists f,
       _check_publication_coverage text_no_date __init__ = Ok (tt, emit __init__ f) /\
       ((Forall (fun p => occurs p text_no_date) key_pubs /\ f = one_pass all_key_pubs_msg) \/
        (exists missing,
           missing <> [] /\ missing_key_pubs text_no_date missing /\
           f = one_warning (missing_pubs_msg missing))))).
Proof.
  split; [exact constructed_init|].
  exact (@checks_never_raise text_no_date __init__ constructed_init).
Defined.
